(** * Jalrakshak AI service: detectors, scoring and orchestration

    A shallow embedding of the Python AI service
    ([ai-service/src/app.py] and [ai-service/src/services/*.py]) together
    with the properties of its decision logic.

    Conventions of the embedding.

    - A finite Python number (an [int] or a [float] read from JSON) is a
      rational [Q]; the arithmetic the service itself performs on such
      numbers ([+], [-], [*], [/], [min], [max], [abs], [round]) is exact
      rational arithmetic, and a decimal literal stands for its decimal
      value.  The thresholds of the rule cascades (0, 1, 1.5, 2, 3, 5, 7,
      8, 10, 15, 35, 50) are exactly representable as floats, so those
      comparisons are the source's.
    - What numpy computes (gradient, mean, standard deviation, correlation,
      least squares) is not re-implemented: the kernels are the fields of the
      class [Numpy], and their results live in [num], which has a NaN.
    - scikit-learn estimators and joblib persistence are the fields of the
      class [Sklearn].  An estimator is an object mutated in place: a fitting
      call returns the object as the call left it together with its outcome,
      and the outcome may be an exception.
    - A Python [dict] is an association list in insertion order; [None],
      booleans, numbers, strings, lists and dicts are the constructors of
      [value].  A Python [bool] and a [numpy.bool_] are both a [VBool]: they
      behave alike until a handler serialises its answer, where [jsonify]
      raises on the second; each module that produces one names the fields
      concerned ([numpy_bools]).
    - A method that may raise returns a [result]; a method of the anomaly
      detector, whose attributes [self.model] and [self.scaler] are shared
      between requests, is a computation over the [store] holding them. *)

From Stdlib Require Import QArith Qround Qabs ZArith List String Ascii Bool.
From Stdlib Require Import Qminmax Lia Lqa DecimalString.
Import ListNotations.

#[local] Open Scope string_scope.
#[local] Open Scope Q_scope.

(* ===================================================================== *)
(** * Python values                                                       *)
(* ===================================================================== *)

Module Py.

#[local] Set Warnings "-register-all".

(** A numpy/Python float: a finite value or NaN. *)
Inductive num : Type :=
| Fin (q : Q)
| NaN.

Inductive value : Type :=
| VNone
| VBool (b : bool)
| VNum (x : num)
| VStr (s : string)
| VList (l : list value)
| VDict (d : list (string * value)).

Definition dict : Type := list (string * value).

(** An exception carries the text [str(e)] would give. *)
Definition exn : Type := string.

Inductive result (A : Type) : Type :=
| Ok (a : A)
| Raise (e : exn).

Arguments Ok {A} a.
Arguments Raise {A} e.

Definition rbind {A B : Type} (r : result A) (k : A -> result B) : result B :=
  match r with
  | Ok a => k a
  | Raise e => Raise e
  end.

(** ** Comparisons of finite numbers *)

Definition Qltb (a b : Q) : bool := negb (Qle_bool b a).
Definition Qgtb (a b : Q) : bool := Qltb b a.
Definition Qleb (a b : Q) : bool := Qle_bool a b.
Definition Qgeb (a b : Q) : bool := Qle_bool b a.

(** Python's [min(a, b)] keeps [a] unless [b < a]; [max(a, b)] keeps [a]
    unless [b > a]. *)
Definition py_min (a b : Q) : Q := if Qltb b a then b else a.
Definition py_max (a b : Q) : Q := if Qgtb b a then b else a.

(** ** Arithmetic and comparisons with NaN: NaN propagates through the
    arithmetic and every comparison with it is false. *)

Definition num_lift2 (f : Q -> Q -> Q) (x y : num) : num :=
  match x, y with
  | Fin a, Fin b => Fin (f a b)
  | _, _ => NaN
  end.

Definition num_add : num -> num -> num := num_lift2 Qplus.
Definition num_sub : num -> num -> num := num_lift2 Qminus.
Definition num_mul : num -> num -> num := num_lift2 Qmult.

Definition num_ltb (x y : num) : bool :=
  match x, y with
  | Fin a, Fin b => Qltb a b
  | _, _ => false
  end.

Definition num_gtb (x y : num) : bool := num_ltb y x.

Definition num_abs (x : num) : num :=
  match x with
  | Fin a => Fin (Qabs a)
  | NaN => NaN
  end.

(** [min(x, b)] on a float [x]: [x] unless [b < x]; a NaN [x] stays. *)
Definition num_min (x y : num) : num := if num_ltb y x then y else x.

(** ** Truthiness of an optional coordinate: [None] and zero are false. *)
Definition truthy (o : option Q) : bool :=
  match o with
  | Some q => negb (Qeq_bool q 0)
  | None => false
  end.

Definition of_opt (o : option Q) : value :=
  match o with
  | Some q => VNum (Fin q)
  | None => VNone
  end.

Definition of_opt_str (o : option string) : value :=
  match o with
  | Some s => VStr s
  | None => VNone
  end.

(** ** Dictionaries *)

Fixpoint lookup (k : string) (d : dict) : option value :=
  match d with
  | [] => None
  | (k', v) :: d' => if String.eqb k k' then Some v else lookup k d'
  end.

(** [d.get(k)] is [None] for a missing key; [d.get(k, dflt)] is [dflt]. *)
Definition get_default (k : string) (dflt : value) (d : dict) : value :=
  match lookup k d with
  | Some v => v
  | None => dflt
  end.

Definition get (k : string) (d : dict) : value := get_default k VNone d.

(** [d[k] = v]: replace in place when the key exists, append otherwise. *)
Fixpoint set (k : string) (v : value) (d : dict) : dict :=
  match d with
  | [] => [(k, v)]
  | (k', v') :: d' =>
      if String.eqb k k' then (k, v) :: d' else (k', v') :: set k v d'
  end.

(** [v in [s1, s2, ...]] for a list of string literals. *)
Definition in_strs (v : value) (l : list string) : bool :=
  match v with
  | VStr s => existsb (String.eqb s) l
  | _ => false
  end.

(** The truth of [if v] for a value. *)
Definition value_truthy (v : value) : bool :=
  match v with
  | VNone => false
  | VBool b => b
  | VNum (Fin q) => negb (Qeq_bool q 0)
  | VNum NaN => true
  | VStr s => negb (String.eqb s "")
  | VList l => match l with [] => false | _ :: _ => true end
  | VDict d => match d with [] => false | _ :: _ => true end
  end.

(** The truth of [if r:] for a dict. *)
Definition dict_truthy (d : dict) : bool :=
  match d with
  | [] => false
  | _ :: _ => true
  end.

(** ** Rounding and the format [{x:.2f}] *)

(** The nearest integer, ties to even. *)
Definition round_half_even (q : Q) : Z :=
  let fl := Qfloor q in
  let r := q - inject_Z fl in
  if Qltb r (1 # 2) then fl
  else if Qltb (1 # 2) r then (fl + 1)%Z
  else if Z.even fl then fl else (fl + 1)%Z.

(** [round(q, 2)]. *)
Definition round2 (q : Q) : Q := inject_Z (round_half_even (q * 100)) / 100.

Definition digits (z : Z) : string := NilZero.string_of_uint (N.to_uint (Z.to_N z)).

Definition two_digits (z : Z) : string :=
  if (z <? 10)%Z then "0" ++ digits z else digits z.

(** [f'{q:.2f}']: sign, integer part, a dot and two decimals. *)
Definition format_2f (q : Q) : string :=
  let n := round_half_even (Qabs q * 100) in
  (if Qltb q 0 then "-" else "")
    ++ digits (n / 100) ++ "." ++ two_digits (n mod 100).

(** ** Slices *)

(** [l[-n:]] *)
Definition last_n {A : Type} (n : nat) (l : list A) : list A :=
  skipn (List.length l - n) l.

(** [l[:-1]] *)
Definition but_last {A : Type} (l : list A) : list A := removelast l.

End Py.

Export Py.

Coercion Fin : Q >-> num.

Declare Scope py_scope.
Delimit Scope py_scope with py.
Notation "a <? b" := (Qltb a b) (at level 70, no associativity) : py_scope.
Notation "a >? b" := (Qgtb a b) (at level 70, no associativity) : py_scope.
Notation "a <=? b" := (Qleb a b) (at level 70, no associativity) : py_scope.
Notation "a >=? b" := (Qgeb a b) (at level 70, no associativity) : py_scope.
#[local] Open Scope py_scope.

Declare Scope result_scope.
Delimit Scope result_scope with result.
Notation "x <- e ;; k" := (rbind e (fun x => k))
  (at level 61, e at next level, right associativity) : result_scope.

(** [a[0]] on what a library call returned. *)
Definition index0 {A : Type} (l : list A) : result A :=
  match l with
  | x :: _ => Ok x
  | [] => Raise "index 0 is out of bounds for axis 0 with size 0"
  end.

(* ===================================================================== *)
(** * The numerical libraries the service calls                          *)
(* ===================================================================== *)

(** The numpy kernels used by the detectors, on one-dimensional arrays of
    finite readings.  Their floating-point results are whatever numpy
    returns; nothing below depends on how they are computed. *)
Class Numpy : Type := {
  (** [np.gradient(a)] *)
  np_gradient : list Q -> list num;
  (** [np.min(a)] and [np.argmin(a)] *)
  np_min : list num -> num;
  np_argmin : list num -> Z;
  (** [np.mean(a)], also [a.mean()] *)
  np_mean : list Q -> num;
  (** [np.std(a)] *)
  np_std : list Q -> num;
  (** the off-diagonal entry of the correlation matrix of two series of
      the same length; NaN when one of them is constant *)
  pearson : list Q -> list Q -> num;
  (** [np.polyfit(range(len(y)), y, 1)[0]], the fitted slope *)
  polyfit_slope : list Q -> num
}.

(** [np.corrcoef(x, y)[0, 1]].  numpy stacks the two series as the rows of
    one matrix and raises [ValueError] when their lengths differ. *)
Definition np_corrcoef {NP : Numpy} (x y : list Q) : result num :=
  if Nat.eqb (List.length x) (List.length y) then Ok (pearson x y)
  else Raise "all the input array dimensions except for the concatenation axis must match exactly".

(** The scikit-learn estimators and the joblib persistence the service
    uses.  [fit] calls mutate the estimator in place and may raise after
    having done so: they return the estimator as they left it and their
    outcome.  [transform], [predict] and [score_samples] only read it. *)
Class Sklearn : Type := {
  ndarray : Type;
  StandardScaler : Type;
  IsolationForest : Type;
  RandomForestRegressor : Type;
  filesystem : Type;
  (** [np.array(rows)] on a list of rows *)
  np_array : list (list Q) -> result ndarray;
  scaler_transform : StandardScaler -> ndarray -> result ndarray;
  scaler_fit_transform :
    StandardScaler -> ndarray -> StandardScaler * result ndarray;
  forest_predict : IsolationForest -> ndarray -> result (list Z);
  forest_score_samples : IsolationForest -> ndarray -> result (list num);
  forest_fit : IsolationForest -> ndarray -> IsolationForest * result unit;
  regressor_predict : RandomForestRegressor -> list (list num) -> result (list num);
  (** [os.makedirs(dir, exist_ok=True)] and [joblib.dump(obj, path)] *)
  os_makedirs : filesystem -> filesystem * result unit;
  joblib_dump_model : IsolationForest -> filesystem -> filesystem * result unit;
  joblib_dump_scaler : StandardScaler -> filesystem -> filesystem * result unit
}.

(* ===================================================================== *)
(** * services/leak_detector.py                                           *)
(* ===================================================================== *)

Module LeakDetector.

(** [LeakDetector.detect(device_id, pressure, flow_rate, gps_lat, gps_lon)] *)
Definition detect (device_id : option string) (pressure flow_rate : Q)
    (gps_lat gps_lon : option Q) : dict :=
  let '(leak_detected, confidence) :=
    if (pressure <? 2.0) && (flow_rate >? 0) then (true, 0.7)
    else if pressure <? 1.5 then (true, 0.9)
    else if (flow_rate >? 50) && (pressure <? 3) then (true, 0.8)
    else (false, 0) in
  let gps_estimate :=
    if leak_detected && truthy gps_lat && truthy gps_lon then
      VDict [("lat", of_opt gps_lat);
             ("lon", of_opt gps_lon);
             ("confidence", VNum confidence);
             ("method", VStr "sensor_location")]
    else VNone in
  [("leak_detected", VBool leak_detected);
   ("confidence", VNum confidence);
   ("gps_estimate", gps_estimate);
   ("pressure", VNum pressure);
   ("flow_rate", VNum flow_rate)].

Section History.
Context {NP : Numpy}.

(** [LeakDetector.detect_with_history(device_id, pressure_data, flow_data)] *)
Definition detect_with_history (device_id : option string)
    (pressure_data flow_data : list Q) : result dict :=
  if (List.length pressure_data <? 10)%nat || (List.length flow_data <? 10)%nat then
    Ok [("leak_detected", VBool false);
        ("confidence", VNum 0);
        ("message", VStr "Insufficient data for leak detection")]
  else
    (* Method 1: pressure gradient analysis *)
    let pressure_gradient := np_gradient pressure_data in
    let pressure_drop := np_min pressure_gradient in
    (* Method 2: flow-pressure correlation *)
    (correlation <- np_corrcoef pressure_data flow_data ;;
    (* Method 3: statistical anomaly in pressure *)
    let pressure_mean := np_mean pressure_data in
    let pressure_std := np_std pressure_data in
    let recent_pressure := np_mean (last_n 5 pressure_data) in
    let leak_detected := false in
    let confidence := 0 in
    let '(leak_detected, confidence) :=
      if num_ltb pressure_drop (-0.3) then (true, confidence + 0.4)
      else (leak_detected, confidence) in
    let '(leak_detected, confidence) :=
      if num_ltb correlation (-0.5) then (true, confidence + 0.3)
      else (leak_detected, confidence) in
    let '(leak_detected, confidence) :=
      if num_ltb recent_pressure (num_sub pressure_mean (num_mul 2 pressure_std))
      then (true, confidence + 0.3)
      else (leak_detected, confidence) in
    let leak_location_estimate :=
      if leak_detected then
        let max_drop_idx := np_argmin pressure_gradient in
        VDict [("index", VNum (inject_Z max_drop_idx));
               ("pressure_drop", VNum pressure_drop);
               ("method", VStr "pressure_gradient_analysis")]
      else VNone in
    Ok [("leak_detected", VBool leak_detected);
        ("confidence", VNum (py_min confidence 1.0));
        ("leak_location_estimate", leak_location_estimate);
        ("pressure_drop", VNum pressure_drop);
        ("correlation", VNum correlation);
        ("pressure_stats",
         VDict [("mean", VNum pressure_mean);
                ("std", VNum pressure_std);
                ("recent", VNum recent_pressure)])])%result.

End History.

End LeakDetector.

(* ===================================================================== *)
(** * services/contamination_detector.py                                  *)
(* ===================================================================== *)

Module ContaminationDetector.

(** The thresholds set by [__init__]. *)
Definition turbidity_safe : Q := 5.0.
Definition turbidity_warning : Q := 7.0.
Definition turbidity_critical : Q := 10.0.
Definition temperature_range : Q * Q := (15, 35).

(** [ContaminationDetector._get_action(severity)] *)
Definition _get_action (severity : string) : string :=
  if String.eqb severity "critical" then
    "IMMEDIATE: Stop water supply. Notify health authorities. Conduct emergency water quality test."
  else if String.eqb severity "high" then
    "URGENT: Issue public advisory. Increase monitoring frequency. Investigate contamination source."
  else if String.eqb severity "medium" then
    "Monitor closely. Increase sampling frequency. Check upstream sources."
  else if String.eqb severity "low" then
    "Continue monitoring. Review sensor calibration."
  else "Monitor and investigate".

(** [ContaminationDetector.detect(device_id, turbidity, temperature,
    gps_lat, gps_lon)] *)
Definition detect (device_id : option string) (turbidity temperature : Q)
    (gps_lat gps_lon : option Q) : dict :=
  let '(contamination_detected, severity, confidence, description) :=
    if turbidity >=? turbidity_critical then
      (true, "critical", 0.95,
       "Critical contamination detected: Turbidity " ++ format_2f turbidity
         ++ " NTU exceeds safe limit (5 NTU)")
    else if turbidity >=? turbidity_warning then
      (true, "high", 0.8,
       "High contamination risk: Turbidity " ++ format_2f turbidity
         ++ " NTU above warning threshold")
    else if turbidity >=? turbidity_safe then
      (true, "medium", 0.6,
       "Moderate contamination: Turbidity " ++ format_2f turbidity
         ++ " NTU above safe limit")
    else (false, "low", 0, "") in
  let '(contamination_detected, severity, confidence, description) :=
    if (temperature <? fst temperature_range)
       || (temperature >? snd temperature_range) then
      if contamination_detected then
        (contamination_detected, severity, py_min (confidence + 0.1) 1.0,
         description ++ ". Temperature anomaly: " ++ format_2f temperature ++ "°C")
      else
        (true, "low", 0.5,
         "Temperature anomaly detected: " ++ format_2f temperature
           ++ "°C (expected: 15-35°C)")
    else (contamination_detected, severity, confidence, description) in
  let gps_estimate :=
    if contamination_detected && truthy gps_lat && truthy gps_lon then
      VDict [("lat", of_opt gps_lat);
             ("lon", of_opt gps_lon);
             ("confidence", VNum confidence);
             ("method", VStr "sensor_location")]
    else VNone in
  [("contamination_detected", VBool contamination_detected);
   ("severity", VStr severity);
   ("confidence", VNum confidence);
   ("description", VStr description);
   ("turbidity", VNum turbidity);
   ("temperature", VNum temperature);
   ("gps_estimate", gps_estimate);
   ("recommended_action", VStr (_get_action severity))].

Section Pattern.
Context {NP : Numpy}.

(** [ContaminationDetector.detect_pattern(turbidity_history,
    temperature_history)] *)
Definition detect_pattern (turbidity_history temperature_history : list Q) : dict :=
  if (List.length turbidity_history <? 5)%nat then
    [("contamination_detected", VBool false);
     ("message", VStr "Insufficient data")]
  else
    (* Detect sudden spikes *)
    let turbidity_mean := np_mean (but_last turbidity_history) in
    let turbidity_std := np_std (but_last turbidity_history) in
    let current_turbidity := last turbidity_history 0 in
    let spike_detected :=
      num_gtb current_turbidity (num_add turbidity_mean (num_mul 3 turbidity_std)) in
    (* Detect gradual increase (trend) *)
    let increasing_trend :=
      if (10 <=? List.length turbidity_history)%nat then
        let recent_trend := polyfit_slope (last_n 10 turbidity_history) in
        num_gtb recent_trend 0.1
      else false in
    let contamination_detected :=
      spike_detected || (increasing_trend && (current_turbidity >? turbidity_safe)) in
    [("contamination_detected", VBool contamination_detected);
     ("spike_detected", VBool spike_detected);
     ("increasing_trend", VBool increasing_trend);
     ("current_turbidity", VNum current_turbidity);
     ("baseline_turbidity", VNum turbidity_mean);
     ("confidence", VNum (if spike_detected then 0.7 else 0.5))].

End Pattern.

End ContaminationDetector.

(* ===================================================================== *)
(** * services/maintenance_predictor.py                                   *)
(* ===================================================================== *)

Module MaintenancePredictor.

(** One historical record; [None] is a key the record does not have. *)
Record reading : Type := {
  timestamp : option string;
  flow_rate : option Q;
  pressure : option Q;
  turbidity : option Q;
  temperature : option Q;
  pump_status : option string
}.

(** [d.get(key, 0)] on a record. *)
Definition get0 (o : option Q) : Q :=
  match o with
  | Some q => q
  | None => 0
  end.

(** [1 if d.get('pump_status') == 'on' else 0] *)
Definition pump_on (d : reading) : Z :=
  match pump_status d with
  | Some s => if String.eqb s "on" then 1%Z else 0%Z
  | None => 0%Z
  end.

(** [np.sum] of a list of integers. *)
Definition np_sum (l : list Z) : Z := fold_right Z.add 0%Z l.

Section WithLibraries.
Context {NP : Numpy} {SK : Sklearn}.

(** [MaintenancePredictor._extract_features(historical_data)] *)
Definition _extract_features (historical_data : list reading) : list num :=
  let flow_rates := map (fun d => get0 (flow_rate d)) historical_data in
  let pressures := map (fun d => get0 (pressure d)) historical_data in
  let turbidities := map (fun d => get0 (turbidity d)) historical_data in
  let temperatures := map (fun d => get0 (temperature d)) historical_data in
  let pump_statuses := map pump_on historical_data in
  [ np_mean flow_rates;
    np_std flow_rates;
    np_mean pressures;
    np_std pressures;
    np_mean turbidities;
    Fin (inject_Z (np_sum pump_statuses)
         / inject_Z (Z.of_nat (List.length pump_statuses))) ].

(** [MaintenancePredictor._get_recommended_actions(urgency, features)] *)
Definition _get_recommended_actions (urgency : string) (features : list num)
    : list string :=
  if String.eqb urgency "critical" then
    ["Schedule immediate maintenance";
     "Check pump motor and bearings";
     "Inspect pipeline for leaks";
     "Review sensor calibrations"]
  else if String.eqb urgency "high" then
    ["Schedule maintenance within 3 days";
     "Monitor pump performance closely";
     "Check for unusual vibrations or sounds";
     "Review recent sensor readings"]
  else if String.eqb urgency "medium" then
    ["Schedule maintenance within 1 week";
     "Continue regular monitoring";
     "Prepare maintenance checklist"]
  else if String.eqb urgency "low" then
    ["Continue regular monitoring";
     "Schedule routine maintenance as per schedule"]
  else [].

(** [MaintenancePredictor.predict(device_id, historical_data)], with
    [self.model] as its first argument. *)
Definition predict (self_model : RandomForestRegressor)
    (device_id : option string) (historical_data : list reading) : result dict :=
  if (List.length historical_data <? 30)%nat then
    Ok [("maintenance_needed", VBool false);
        ("days_until_maintenance", VNone);
        ("confidence", VNum 0);
        ("message", VStr "Insufficient historical data (need at least 30 readings)")]
  else
    let features := _extract_features historical_data in
    (predictions <- regressor_predict self_model [features] ;;
     prediction <- index0 predictions ;;
     let maintenance_needed := num_ltb prediction 7 in
     let urgency :=
       if num_ltb prediction 1 then "critical"
       else if num_ltb prediction 3 then "high"
       else if num_ltb prediction 7 then "medium"
       else "low" in
     let confidence :=
       py_min (inject_Z (Z.of_nat (List.length historical_data)) / 100) 1.0 in
     Ok [("maintenance_needed", VBool maintenance_needed);
         ("days_until_maintenance", VNum prediction);
         ("urgency", VStr urgency);
         ("confidence", VNum confidence);
         ("recommended_actions",
          VList (map VStr (_get_recommended_actions urgency features)))])%result.

(** The fields of a result of [predict] whose boolean is a [numpy.bool_]:
    on 30 records or more [maintenance_needed] is [prediction < 7], a
    comparison on a numpy float; below 30 it is the literal [False]. *)
Definition numpy_bools (historical_data : list reading) : list string :=
  if (List.length historical_data <? 30)%nat then [] else ["maintenance_needed"].

End WithLibraries.

End MaintenancePredictor.

(* ===================================================================== *)
(** * services/anomaly_detector.py                                        *)
(* ===================================================================== *)

Module AnomalyDetector.

Section WithSklearn.
Context {SK : Sklearn}.

(** The attributes of the detector that calls read or mutate, and the
    files [_save_model] writes to. *)
Record store : Type := {
  model : IsolationForest;
  scaler : StandardScaler;
  files : filesystem
}.

(** A method body: it runs on the store, leaves a store behind and either
    returns or raises.  What was mutated before an exception stays mutated. *)
Definition M (A : Type) : Type := store -> store * result A.

Definition ret {A : Type} (a : A) : M A := fun s => (s, Ok a).

Definition bind {A B : Type} (m : M A) (k : A -> M B) : M B :=
  fun s =>
    match m s with
    | (s', Ok a) => k a s'
    | (s', Raise e) => (s', Raise e)
    end.

(** [try: m  except Exception as e: h e] *)
Definition try_except {A : Type} (m : M A) (h : exn -> M A) : M A :=
  fun s =>
    match m s with
    | (s', Ok a) => (s', Ok a)
    | (s', Raise e) => h e s'
    end.

(** A call that touches no attribute. *)
Definition lift {A : Type} (r : result A) : M A := fun s => (s, r).

Definition self_model : M IsolationForest := fun s => (s, Ok (model s)).
Definition self_scaler : M StandardScaler := fun s => (s, Ok (scaler s)).

(** A method call on [self.scaler], [self.model] or the file system that
    may mutate its receiver. *)
Definition on_scaler {A : Type}
    (call : StandardScaler -> StandardScaler * result A) : M A :=
  fun s =>
    let '(sc, r) := call (scaler s) in
    ({| model := model s; scaler := sc; files := files s |}, r).

Definition on_model {A : Type}
    (call : IsolationForest -> IsolationForest * result A) : M A :=
  fun s =>
    let '(m, r) := call (model s) in
    ({| model := m; scaler := scaler s; files := files s |}, r).

Definition on_files {A : Type}
    (call : filesystem -> filesystem * result A) : M A :=
  fun s =>
    let '(fs, r) := call (files s) in
    ({| model := model s; scaler := scaler s; files := fs |}, r).

End WithSklearn.

Declare Scope method_scope.
Delimit Scope method_scope with method.
Notation "x <- e ;; k" := (bind e (fun x => k))
  (at level 61, e at next level, right associativity) : method_scope.
Notation "e ;; k" := (bind e (fun _ => k))
  (at level 61, right associativity) : method_scope.

Section Methods.
Context {SK : Sklearn}.

(** [self.normal_ranges], set in [__init__] and never written again. *)
Definition normal_ranges (key : string) : Q * Q :=
  if String.eqb key "flow_rate" then (5, 50)
  else if String.eqb key "pressure" then (2, 8)
  else if String.eqb key "turbidity" then (0, 5)
  else (15, 35).

(** [AnomalyDetector._save_model()] *)
Definition _save_model : M unit :=
  (on_files os_makedirs ;;
   m <- self_model ;;
   on_files (joblib_dump_model m) ;;
   sc <- self_scaler ;;
   on_files (joblib_dump_scaler sc))%method.

(** [AnomalyDetector._generate_description(anomaly_type, flow_rate,
    pressure, turbidity, temperature)] *)
Definition _generate_description (anomaly_type : string)
    (flow_rate pressure turbidity temperature : Q) : string :=
  if String.eqb anomaly_type "pressure_anomaly" then
    "Pressure anomaly detected: " ++ format_2f pressure ++ " bar (expected: 2-8 bar)"
  else if String.eqb anomaly_type "low_flow" then
    "Low flow rate detected: " ++ format_2f flow_rate ++ " L/min (expected: 5-50 L/min)"
  else if String.eqb anomaly_type "contamination" then
    "Water quality issue: Turbidity " ++ format_2f turbidity ++ " NTU (expected: <5 NTU)"
  else if String.eqb anomaly_type "leak" then
    "Possible leak detected: Flow-Pressure mismatch (Flow: " ++ format_2f flow_rate
      ++ " L/min, Pressure: " ++ format_2f pressure ++ " bar)"
  else if String.eqb anomaly_type "general_anomaly" then
    "Anomaly detected in sensor readings"
  else "Anomaly detected".

(** [AnomalyDetector._get_recommended_action(anomaly_type, severity)] *)
Definition _get_recommended_action (anomaly_type severity : string) : string :=
  if String.eqb anomaly_type "pressure_anomaly" then
    "Check pump operation and pipeline integrity"
  else if String.eqb anomaly_type "low_flow" then
    "Inspect for blockages or valve issues"
  else if String.eqb anomaly_type "contamination" then
    "Immediate water quality test required. Notify health authorities."
  else if String.eqb anomaly_type "leak" then
    "Dispatch field team to investigate leak. Use GPS coordinates for location."
  else if String.eqb anomaly_type "general_anomaly" then
    "Review sensor readings and perform diagnostic check"
  else "Investigate anomaly".

(** [AnomalyDetector.detect(flow_rate, pressure, turbidity, temperature,
    device_id)] *)
Definition detect (flow_rate pressure turbidity temperature : Q)
    (device_id : option string) : M dict :=
  (features <- lift (np_array [[flow_rate; pressure; turbidity; temperature]]) ;;
   sc <- self_scaler ;;
   features_scaled <- lift (scaler_transform sc features) ;;
   m <- self_model ;;
   prediction <- lift (forest_predict m features_scaled) ;;
   scores <- lift (forest_score_samples m features_scaled) ;;
   anomaly_score <- lift (index0 scores) ;;
   p0 <- lift (index0 prediction) ;;
   let anomaly_detected := (p0 =? -1)%Z in
   let confidence := num_mul (num_abs anomaly_score) 100 in
   let '(anomaly_type, severity, description, recommended_action) :=
     if anomaly_detected then
       let '(anomaly_type, severity) :=
         if (pressure <? fst (normal_ranges "pressure"))
            || (pressure >? snd (normal_ranges "pressure")) then
           ("pressure_anomaly",
            if pressure <? 1 then "critical"
            else if pressure <? 1.5 then "high"
            else "medium")
         else if flow_rate <? fst (normal_ranges "flow_rate") * 0.5 then
           ("low_flow", if flow_rate <? 1 then "high" else "medium")
         else if turbidity >? snd (normal_ranges "turbidity") then
           ("contamination",
            if turbidity >? 10 then "critical"
            else if turbidity >? 7 then "high"
            else "medium")
         else if Qabs (flow_rate - pressure * 5) >? 20 then
           ("leak", "high")
         else
           ("general_anomaly", "medium") in
       (VStr anomaly_type, severity,
        _generate_description anomaly_type flow_rate pressure turbidity temperature,
        _get_recommended_action anomaly_type severity)
     else
       (VNone, "low", "All parameters within normal range", "Continue monitoring") in
   ret [("anomaly_detected", VBool anomaly_detected);
        ("anomaly_type", anomaly_type);
        ("severity", VStr severity);
        ("confidence", VNum (num_min confidence 100));
        ("description", VStr description);
        ("recommended_action", VStr recommended_action)])%method.

(** The fields of a result of [detect] whose boolean is a [numpy.bool_]
    and not a Python [bool]: [anomaly_detected] is [prediction[0] == -1], a
    comparison on a numpy integer.  The embedding writes both kinds of
    boolean [VBool]; the JSON encoder tells them apart. *)
Definition numpy_bools : list string := ["anomaly_detected"].

(** [AnomalyDetector.update_model(training_data)].  The [print] of the
    handler writes to standard output only. *)
Definition update_model (training_data : list (list Q)) : M bool :=
  try_except
    (X <- lift (np_array training_data) ;;
     X_scaled <- on_scaler (fun sc => scaler_fit_transform sc X) ;;
     on_model (fun m => forest_fit m X_scaled) ;;
     _save_model ;;
     ret true)%method
    (fun e => ret false).

End Methods.

End AnomalyDetector.

(* ===================================================================== *)
(** * app.py                                                              *)
(* ===================================================================== *)

Module App.

(** [clamp(value, min_value, max_value)] *)
Definition clamp (value min_value max_value : Q) : Q :=
  py_max min_value (py_min value max_value).

(** [score_turbidity(turbidity)]; NTU: 0 best, 50 worst. *)
Definition score_turbidity (turbidity : option Q) : Q :=
  match turbidity with
  | None => 60
  | Some turbidity => clamp (100 - (clamp turbidity 0 50 / 50) * 100) 0 100
  end.

(** [score_conductivity(conductivity)] *)
Definition score_conductivity (conductivity : option Q) : Q :=
  match conductivity with
  | None => 65
  | Some conductivity =>
      clamp (100 - ((clamp conductivity 0 1500 - 250) / 1250) * 100) 0 100
  end.

(** [score_temperature(temperature)] *)
Definition score_temperature (temperature : option Q) : Q :=
  match temperature with
  | None => 70
  | Some temperature =>
      if (15 <=? temperature) && (temperature <=? 30) then 100
      else
        let deviation := py_min (Qabs (temperature - 22.5)) 15 in
        clamp (100 - (deviation / 15) * 100) 0 100
  end.

(** [score_ph(ph)] *)
Definition score_ph (ph : option Q) : Q :=
  match ph with
  | None => 70
  | Some ph =>
      let ideal := 7.4 in
      let deviation := Qabs (ph - ideal) in
      if deviation >=? 3 then 0
      else clamp (100 - (deviation / 3) * 100) 0 100
  end.

(** [classify_wqi(wqi)] *)
Definition classify_wqi (wqi : Q) : dict :=
  if wqi >=? 80 then
    [("status", VStr "good");
     ("color", VStr "green");
     ("indicator", VStr "🟢");
     ("message", VStr "Water quality is good and safe for supply.")]
  else if wqi >=? 60 then
    [("status", VStr "average");
     ("color", VStr "yellow");
     ("indicator", VStr "🟡");
     ("message", VStr "Water quality is acceptable but should be monitored.")]
  else
    [("status", VStr "bad");
     ("color", VStr "red");
     ("indicator", VStr "🔴");
     ("message", VStr "Water quality is poor. Immediate action required.")].

(** [calculate_water_quality(turbidity, ph, temperature, conductivity)] *)
Definition calculate_water_quality (turbidity ph temperature conductivity : option Q)
    : dict :=
  let turbidity_score := score_turbidity turbidity in
  let ph_score := score_ph ph in
  let temperature_score := score_temperature temperature in
  let conductivity_score := score_conductivity conductivity in
  let wqi :=
    turbidity_score * 0.3 + ph_score * 0.3
    + temperature_score * 0.2 + conductivity_score * 0.2 in
  let wqi := round2 wqi in
  let classification := classify_wqi wqi in
  ("wqi", VNum wqi) :: classification.

(** The JSON body of a request to [/analyze]; [None] is an absent key. *)
Record telemetry : Type := {
  device_id : option string;
  flow_rate : option Q;
  pressure : option Q;
  turbidity : option Q;
  temperature : option Q;
  ph : option Q;
  conductivity : option Q;
  timestamp : option string;
  gps_lat : option Q;
  gps_lon : option Q
}.

(** [data.get(key, 0)] *)
Definition get0 (o : option Q) : Q :=
  match o with
  | Some q => q
  | None => 0
  end.

Definition of_result (r : option dict) : value :=
  match r with
  | Some d => VDict d
  | None => VNone
  end.

(** [jsonify(body)] on the dict a handler built.  The JSON encoder accepts
    [None], Python booleans, numbers (a [numpy.float64] is a [float]),
    strings, lists and dicts, and raises [TypeError] on a [numpy.bool_].
    [numpy_bools] names the fields of [body] whose boolean, when they hold
    one, is a [numpy.bool_]. *)
Definition jsonify (numpy_bools : list string) (body : dict) : result dict :=
  if existsb (fun k => match lookup k body with
                       | Some (VBool _) => true
                       | _ => false
                       end) numpy_bools
  then Raise "Object of type bool_ is not JSON serializable"
  else Ok body.

Section Routes.
Context {NP : Numpy} {SK : Sklearn}.

Import AnomalyDetector.

(** [analyze()], the handler of [POST /analyze], on the parsed body
    [data]: the JSON answer and the HTTP status.  It runs on the store of
    the module-level [anomaly_detector]; the leak and contamination
    detectors keep no state. *)
Definition analyze (data : telemetry) : M (dict * Z) :=
  try_except
    (let device_id := device_id data in
     let flow_rate := get0 (flow_rate data) in
     let pressure := get0 (pressure data) in
     let turbidity := get0 (turbidity data) in
     let temperature := get0 (temperature data) in
     let ph := ph data in
     let conductivity := conductivity data in
     let gps_lat := gps_lat data in
     let gps_lon := gps_lon data in
     (* Anomaly detection *)
     anomaly_result <-
       AnomalyDetector.detect flow_rate pressure turbidity temperature device_id ;;
     (* Leak detection (if pressure/flow anomaly) *)
     let leak_result :=
       if value_truthy (get "anomaly_detected" anomaly_result)
          && in_strs (get "anomaly_type" anomaly_result) ["leak"; "pressure_anomaly"]
       then Some (LeakDetector.detect device_id pressure flow_rate gps_lat gps_lon)
       else None in
     (* Contamination detection (if turbidity anomaly) *)
     let contamination_result :=
       if value_truthy (get "anomaly_detected" anomaly_result)
          && in_strs (get "anomaly_type" anomaly_result)
               ["contamination"; "turbidity_anomaly"]
       then Some (ContaminationDetector.detect device_id turbidity temperature
                    gps_lat gps_lon)
       else None in
     (* Water quality index *)
     let water_quality :=
       calculate_water_quality (Some turbidity) ph (Some temperature) conductivity in
     (* Combine results *)
     let result :=
       [("anomaly_detected", get_default "anomaly_detected" (VBool false) anomaly_result);
        ("anomaly_type", get "anomaly_type" anomaly_result);
        ("severity", get_default "severity" (VStr "low") anomaly_result);
        ("confidence", get_default "confidence" (VNum 0) anomaly_result);
        ("description", get_default "description" (VStr "") anomaly_result);
        ("gps_estimate",
         match leak_result with
         | Some r => if dict_truthy r then get "gps_estimate" r else VNone
         | None => VNone
         end);
        ("recommended_action", get_default "recommended_action" (VStr "") anomaly_result);
        ("water_quality", VDict water_quality)] in
     (* Merge leak/contamination specific data *)
     let result :=
       match leak_result with
       | Some r =>
           if dict_truthy r then
             set "gps_estimate" (get "gps_estimate" r) (set "leak_details" (VDict r) result)
           else result
       | None => result
       end in
     let result :=
       match contamination_result with
       | Some r =>
           if dict_truthy r then set "contamination_details" (VDict r) result
           else result
       | None => result
       end in
     body <- lift (jsonify AnomalyDetector.numpy_bools result) ;;
     ret (body, 200%Z))%method
    (fun e => ret ([("error", VStr e)], 500%Z)).

(** [detect_leak()], the handler of [POST /detect-leak], on the two arrays
    of the body (an absent key is the empty list).  The booleans of a
    result of [detect_with_history] are comparisons of Python floats. *)
Definition detect_leak (device_id : option string) (pressure_data flow_data : list Q)
    : dict * Z :=
  match (result <- LeakDetector.detect_with_history device_id pressure_data flow_data ;;
         jsonify [] result)%result with
  | Ok body => (body, 200%Z)
  | Raise e => ([("error", VStr e)], 500%Z)
  end.

(** [predict_maintenance()], the handler of [POST /predict-maintenance],
    with the model of the module-level [maintenance_predictor]. *)
Definition predict_maintenance (self_model : RandomForestRegressor)
    (device_id : option string)
    (historical_data : list MaintenancePredictor.reading) : dict * Z :=
  match (result <- MaintenancePredictor.predict self_model device_id historical_data ;;
         jsonify (MaintenancePredictor.numpy_bools historical_data) result)%result with
  | Ok body => (body, 200%Z)
  | Raise e => ([("error", VStr e)], 500%Z)
  end.

End Routes.

End App.

(* ===================================================================== *)
(** * Stand-ins for the libraries                                         *)
(* ===================================================================== *)

(** Executable instances of [Numpy] and [Sklearn], used to run the service
    on concrete inputs.  The theorems further down hold for every instance;
    these fix one so that examples evaluate. *)
Module Standin.

(** ** numpy, in rational arithmetic (square roots to six decimals) *)

Definition sumQ (l : list Q) : Q := fold_right Qplus 0 l.

Definition lenQ {A : Type} (l : list A) : Q := inject_Z (Z.of_nat (List.length l)).

Definition meanQ (l : list Q) : Q := Qred (sumQ l / lenQ l).

Definition covQ (x y : list Q) : Q :=
  let mx := meanQ x in
  let my := meanQ y in
  Qred (sumQ (map (fun p => (fst p - mx) * (snd p - my)) (combine x y)) / lenQ x).

Definition varQ (x : list Q) : Q := covQ x x.

Definition sqrtQ (q : Q) : Q :=
  if q <=? 0 then 0
  else Qred (inject_Z (Z.sqrt (Qfloor (q * 1000000000000))) / 1000000).

Definition mean (l : list Q) : num :=
  match l with
  | [] => NaN
  | _ :: _ => Fin (meanQ l)
  end.

Definition std (l : list Q) : num :=
  match l with
  | [] => NaN
  | _ :: _ => Fin (sqrtQ (varQ l))
  end.

Definition corr (x y : list Q) : num :=
  let d := varQ x * varQ y in
  if Qeq_bool d 0 then NaN else Fin (Qred (covQ x y / sqrtQ d)).

(** Central differences inside, one-sided differences at the two ends. *)
Definition gradient (l : list Q) : list num :=
  let n := List.length l in
  let at_ (i : nat) := nth i l 0 in
  map (fun i =>
         if (i =? 0)%nat then Fin (Qred (at_ 1%nat - at_ 0%nat))
         else if (i =? n - 1)%nat then Fin (Qred (at_ (n - 1)%nat - at_ (n - 2)%nat))
         else Fin (Qred ((at_ (i + 1)%nat - at_ (i - 1)%nat) / 2)))
      (seq 0 n).

Definition min2 (a b : num) : num :=
  match a, b with
  | Fin x, Fin y => if y <? x then Fin y else Fin x
  | _, _ => NaN
  end.

Definition minimum (l : list num) : num :=
  match l with
  | [] => NaN
  | x :: r => fold_left min2 r x
  end.

(** The first index holding the minimum. *)
Fixpoint argmin_from (i best : Z) (bv : num) (l : list num) : Z :=
  match l with
  | [] => best
  | x :: r =>
      if num_ltb x bv then argmin_from (i + 1) i x r
      else argmin_from (i + 1) best bv r
  end.

Definition argmin (l : list num) : Z :=
  match l with
  | [] => 0%Z
  | x :: r => argmin_from 1 0 x r
  end.

(** The least-squares slope of [y] against [0, 1, ..., len(y) - 1]. *)
Definition slope (y : list Q) : num :=
  let n := lenQ y in
  let xs := map (fun i => inject_Z (Z.of_nat i)) (seq 0 (List.length y)) in
  let sx := sumQ xs in
  let sy := sumQ y in
  let sxy := sumQ (map (fun p => fst p * snd p) (combine xs y)) in
  let sxx := sumQ (map (fun x => x * x) xs) in
  let d := n * sxx - sx * sx in
  if Qeq_bool d 0 then NaN else Fin (Qred ((n * sxy - sx * sy) / d)).

Definition numpy : Numpy := {|
  np_gradient := gradient;
  np_min := minimum;
  np_argmin := argmin;
  np_mean := mean;
  np_std := std;
  pearson := corr;
  polyfit_slope := slope
|}.

(** ** scikit-learn: a centring scaler and a bounding-box outlier model *)

Definition rectangular (X : list (list Q)) : bool :=
  match X with
  | [] => false
  | r :: rs =>
      negb (List.length r =? 0)%nat
      && forallb (fun r' => (List.length r' =? List.length r)%nat) rs
  end.

Definition column (j : nat) (X : list (list Q)) : list Q :=
  map (fun r => nth j r 0) X.

Definition columns (X : list (list Q)) : list (list Q) :=
  match X with
  | [] => []
  | r :: _ => map (fun j => column j X) (seq 0 (List.length r))
  end.

(** The fitted scaler is its column means; [None] is a scaler that has not
    been fitted. *)
Definition scaler_state : Type := option (list Q).

Definition centre (means : list Q) (X : list (list Q)) : list (list Q) :=
  map (fun r => map (fun p => Qred (fst p - snd p)) (combine r means)) X.

Definition transform (sc : scaler_state) (X : list (list Q)) : result (list (list Q)) :=
  match sc with
  | None => Raise "This StandardScaler instance is not fitted yet."
  | Some means =>
      if forallb (fun r => (List.length r =? List.length means)%nat) X
      then Ok (centre means X)
      else Raise "X has a different number of features than the scaler was fitted with"
  end.

(** [fit] forgets the previous statistics, then validates its input. *)
Definition fit_transform (sc : scaler_state) (X : list (list Q))
    : scaler_state * result (list (list Q)) :=
  if rectangular X then
    let means := map meanQ (columns X) in
    (Some means, Ok (centre means X))
  else (None, Raise "Expected 2D array, got 1D array instead").

(** The fitted outlier model is, per feature, the interval its training
    rows span; a sample outside the box is an outlier. *)
Definition forest_state : Type := option (list (Q * Q)).

Definition span (c : list Q) : Q * Q :=
  (fold_right py_min (hd 0 c) c, fold_right py_max (hd 0 c) c).

Definition inside (box : list (Q * Q)) (r : list Q) : bool :=
  forallb (fun p => (fst (snd p) <=? fst p) && (fst p <=? snd (snd p)))
          (combine r box).

Definition predict (f : forest_state) (X : list (list Q)) : result (list Z) :=
  match f with
  | None => Raise "This IsolationForest instance is not fitted yet."
  | Some box => Ok (map (fun r => if inside box r then 1%Z else (-1)%Z) X)
  end.

Definition score_samples (f : forest_state) (X : list (list Q)) : result (list num) :=
  match f with
  | None => Raise "This IsolationForest instance is not fitted yet."
  | Some box => Ok (map (fun r => if inside box r then Fin (-0.4) else Fin (-0.6)) X)
  end.

(** [fit_raises] selects the run in which the ensemble's fit raises. *)
Definition fit (fit_raises : bool) (f : forest_state) (X : list (list Q))
    : forest_state * result unit :=
  if fit_raises then (f, Raise "numerical fit failure")
  else (Some (map span (columns X)), Ok tt).

(** The regressor checks the number of features it was trained with and
    answers a fixed number of days. *)
Record regressor : Type := {
  n_features_in : nat;
  days : Q
}.

Definition regress (m : regressor) (X : list (list num)) : result (list num) :=
  if forallb (fun r => (List.length r =? n_features_in m)%nat) X
  then Ok (map (fun _ => Fin (days m)) X)
  else Raise "X has a different number of features than RandomForestRegressor is expecting".

Record disk : Type := {
  model_pkl : option forest_state;
  scaler_pkl : option scaler_state
}.

Definition sklearn (fit_raises : bool) : Sklearn := {|
  ndarray := list (list Q);
  StandardScaler := scaler_state;
  IsolationForest := forest_state;
  RandomForestRegressor := regressor;
  filesystem := disk;
  np_array := fun rows => Ok rows;
  scaler_transform := transform;
  scaler_fit_transform := fit_transform;
  forest_predict := predict;
  forest_score_samples := score_samples;
  forest_fit := fit fit_raises;
  regressor_predict := regress;
  os_makedirs := fun fs => (fs, Ok tt);
  joblib_dump_model := fun m fs =>
    ({| model_pkl := Some m; scaler_pkl := scaler_pkl fs |}, Ok tt);
  joblib_dump_scaler := fun sc fs =>
    ({| model_pkl := model_pkl fs; scaler_pkl := Some sc |}, Ok tt)
|}.

(** The store [AnomalyDetector.__init__] builds when no model file exists:
    scaler and model fitted on the three built-in rows, then saved. *)
Definition dummy_data : list (list Q) :=
  [[10; 5; 2; 25]; [12; 6; 3; 26]; [11; 5.5; 2.5; 25.5]].

Definition cold_start (fit_raises : bool)
    : @AnomalyDetector.store (sklearn fit_raises) :=
  let sc := fst (fit_transform None dummy_data) in
  let m :=
    match transform sc dummy_data with
    | Ok X => fst (fit false None X)
    | Raise _ => None
    end in
  @AnomalyDetector.Build_store (sklearn fit_raises) m sc
    {| model_pkl := Some m; scaler_pkl := Some sc |}.

(** A record of a steady pump. *)
Definition steady : MaintenancePredictor.reading := {|
  MaintenancePredictor.timestamp := None;
  MaintenancePredictor.flow_rate := Some 20;
  MaintenancePredictor.pressure := Some 4;
  MaintenancePredictor.turbidity := Some 1;
  MaintenancePredictor.temperature := Some 25;
  MaintenancePredictor.pump_status := Some "on"
|}.

(** Ten pressures falling from 5.0 to 1.0 and a constant flow of 20. *)
Definition falling_pressure : list Q :=
  [5; 4.5; 4.1; 3.6; 3.2; 2.8; 2.3; 1.9; 1.4; 1].

Definition constant_flow : list Q := repeat 20 10.

End Standin.

(* ===================================================================== *)
(** * The fusion rule of the leak history, in the specification's words   *)
(* ===================================================================== *)

(** The specification describes the confidence of the historical leak
    detector as the capped sum of the weights of the signals that fire.
    These definitions say that, for comparison with
    [LeakDetector.detect_with_history]. *)
Module FusionSpec.

Section Signals.
Context {NP : Numpy}.






End Signals.

End FusionSpec.

(* ===================================================================== *)
(** * services/leak_detector.py, localisation over several sensors        *)
(* ===================================================================== *)

Module LeakLocalizer.

(** One element of [sensor_readings]; [None] is a key the reading does
    not have. *)
Record sensor_reading : Type := {
  device_id : option string;
  pressure : option Q;
  flow_rate : option Q;
  gps_lat : option Q;
  gps_lon : option Q
}.

(** [[s['pressure'] for s in sensor_readings]]: the first reading without
    the key raises [KeyError('pressure')]. *)
Fixpoint pressures_of (sensor_readings : list sensor_reading) : result (list Q) :=
  match sensor_readings with
  | [] => Ok []
  | s :: rest =>
      match pressure s with
      | None => Raise "'pressure'"
      | Some p => (ps <- pressures_of rest ;; Ok (p :: ps))%result
      end
  end.

(** [np.argmin] on finite numbers compares exactly: it is the first index
    holding the least value. *)
Fixpoint argmin_from (i best : nat) (bv : Q) (l : list Q) : nat :=
  match l with
  | [] => best
  | x :: r =>
      if x <? bv then argmin_from (S i) i x r
      else argmin_from (S i) best bv r
  end.

Definition np_argmin (l : list Q) : nat :=
  match l with
  | [] => 0%nat
  | x :: r => argmin_from 1 0 x r
  end.

(** [LeakDetector.localize_leak(sensor_readings, pipeline_network)] *)
Definition localize_leak (sensor_readings : list sensor_reading)
    (pipeline_network : value) : result value :=
  match sensor_readings with
  | [] => Ok VNone
  | _ :: _ =>
      (pressures <- pressures_of sensor_readings ;;
       let min_pressure_idx := np_argmin pressures in
       match nth_error sensor_readings min_pressure_idx with
       | None => Raise "list index out of range"
       | Some leak_sensor =>
           Ok (VDict
                 [("estimated_location",
                   VDict [("lat", of_opt (gps_lat leak_sensor));
                          ("lon", of_opt (gps_lon leak_sensor))]);
                  ("confidence", VNum 0.7);
                  ("method", VStr "pressure_minimum")])
       end)%result
  end.

End LeakLocalizer.

(* ===================================================================== *)
(** * The rule cascade of the classifier as an ordered table              *)
(* ===================================================================== *)

(** The type and severity of a flagged sample, written as an ordered list
    of (predicate, outcome) pairs evaluated top to bottom, the first match
    winning, for comparison with the if/elif chain of
    [AnomalyDetector.detect]. *)
Module CascadeSpec.

Record rule : Type := {
  applies : Q -> Q -> Q -> bool;      (* flow_rate, pressure, turbidity *)
  anomaly_type : string;
  severity : Q -> Q -> Q -> string
}.

Definition pressure_rule : rule := {|
  applies := fun _ pressure _ => (pressure <? 2) || (pressure >? 8);
  anomaly_type := "pressure_anomaly";
  severity := fun _ pressure _ =>
    if pressure <? 1 then "critical"
    else if pressure <? 1.5 then "high" else "medium"
|}.

Definition low_flow_rule : rule := {|
  applies := fun flow_rate _ _ => flow_rate <? 2.5;
  anomaly_type := "low_flow";
  severity := fun flow_rate _ _ => if flow_rate <? 1 then "high" else "medium"
|}.

Definition contamination_rule : rule := {|
  applies := fun _ _ turbidity => turbidity >? 5;
  anomaly_type := "contamination";
  severity := fun _ _ turbidity =>
    if turbidity >? 10 then "critical"
    else if turbidity >? 7 then "high" else "medium"
|}.

Definition leak_rule : rule := {|
  applies := fun flow_rate pressure _ => Qabs (flow_rate - pressure * 5) >? 20;
  anomaly_type := "leak";
  severity := fun _ _ _ => "high"
|}.

Definition rules : list rule :=
  [pressure_rule; low_flow_rule; contamination_rule; leak_rule].

Fixpoint first_match (rs : list rule) (flow_rate pressure turbidity : Q)
    : string * string :=
  match rs with
  | [] => ("general_anomaly", "medium")
  | r :: rs' =>
      if applies r flow_rate pressure turbidity
      then (anomaly_type r, severity r flow_rate pressure turbidity)
      else first_match rs' flow_rate pressure turbidity
  end.

End CascadeSpec.

(* ===================================================================== *)
(** * Sample inputs                                                       *)
(* ===================================================================== *)

(** Requests and readings the examples run the service on. *)
Module Scenario.

(** A pressure drop at a sensor that reports its position. *)
Definition pressure_drop : App.telemetry := {|
  App.device_id := Some "pump-7";
  App.flow_rate := Some 10;
  App.pressure := Some 1.2;
  App.turbidity := Some 2;
  App.temperature := Some 25;
  App.ph := Some 7.4;
  App.conductivity := None;
  App.timestamp := None;
  App.gps_lat := Some 12.5;
  App.gps_lon := Some 77.25
|}.

(** Turbid water, exactly 10 NTU, at normal pressure and flow. *)
Definition turbid : App.telemetry := {|
  App.device_id := Some "pump-7";
  App.flow_rate := Some 20;
  App.pressure := Some 4;
  App.turbidity := Some 10;
  App.temperature := Some 25;
  App.ph := None;
  App.conductivity := None;
  App.timestamp := None;
  App.gps_lat := Some 12.5;
  App.gps_lon := Some 77.25
|}.

Definition sensor (name : string) (p : Q) (lat lon : option Q)
    : LeakLocalizer.sensor_reading := {|
  LeakLocalizer.device_id := Some name;
  LeakLocalizer.pressure := Some p;
  LeakLocalizer.flow_rate := None;
  LeakLocalizer.gps_lat := lat;
  LeakLocalizer.gps_lon := lon
|}.

(** Three sensors; the second and the third share the lowest pressure. *)
Definition three_sensors : list LeakLocalizer.sensor_reading :=
  [sensor "a" 3.1 (Some 12.5) (Some 77.25);
   sensor "b" 1.4 (Some 12.75) (Some 77.5);
   sensor "c" 1.4 None None].

(** A regressor trained on six features that answers [days]. *)
Definition six_features (days : Q) : Standin.regressor :=
  {| Standin.n_features_in := 6; Standin.days := days |}.

End Scenario.

(* ===================================================================== *)
(** * Comparisons and clamping                                            *)
(* ===================================================================== *)

Lemma Qltb_lt (a b : Q) : Qltb a b = true <-> a < b.
Proof.
  unfold Qltb. rewrite negb_true_iff. split.
  - intros H. apply Qnot_le_lt. intros Hle.
    apply Qle_bool_iff in Hle. congruence.
  - intros H. destruct (Qle_bool b a) eqn:E; [|reflexivity].
    apply Qle_bool_iff in E. exfalso. apply (Qlt_not_le _ _ H E).
Qed.

Lemma Qltb_ge (a b : Q) : Qltb a b = false <-> b <= a.
Proof.
  unfold Qltb. rewrite negb_false_iff. apply Qle_bool_iff.
Qed.

Lemma Qgtb_gt (a b : Q) : Qgtb a b = true <-> b < a.
Proof. apply Qltb_lt. Qed.

Lemma Qgtb_le (a b : Q) : Qgtb a b = false <-> a <= b.
Proof. apply Qltb_ge. Qed.

Lemma Qleb_le (a b : Q) : Qleb a b = true <-> a <= b.
Proof. apply Qle_bool_iff. Qed.

Lemma Qleb_gt (a b : Q) : Qleb a b = false <-> b < a.
Proof.
  unfold Qleb. split.
  - intros H. apply Qnot_le_lt. intros Hle. apply Qle_bool_iff in Hle. congruence.
  - intros H. destruct (Qle_bool a b) eqn:E; [|reflexivity].
    apply Qle_bool_iff in E. exfalso. apply (Qlt_not_le _ _ H E).
Qed.

Lemma Qgeb_ge (a b : Q) : Qgeb a b = true <-> b <= a.
Proof. apply Qleb_le. Qed.

Lemma Qgeb_lt (a b : Q) : Qgeb a b = false <-> a < b.
Proof. apply Qleb_gt. Qed.

(** Turn every boolean comparison among the hypotheses into its
    proposition. *)
Ltac reflect_cmp :=
  repeat match goal with
    | H : Qltb _ _ = true |- _ => apply Qltb_lt in H
    | H : Qltb _ _ = false |- _ => apply Qltb_ge in H
    | H : Qgtb _ _ = true |- _ => apply Qgtb_gt in H
    | H : Qgtb _ _ = false |- _ => apply Qgtb_le in H
    | H : Qleb _ _ = true |- _ => apply Qleb_le in H
    | H : Qleb _ _ = false |- _ => apply Qleb_gt in H
    | H : Qgeb _ _ = true |- _ => apply Qgeb_ge in H
    | H : Qgeb _ _ = false |- _ => apply Qgeb_lt in H
    end.

(** Linear arithmetic, with a division by a constant read as a product. *)
Ltac lra_div := unfold Qdiv in *; cbn [Qinv Qnum Qden] in *; lra.

(** Split on the next comparison the goal branches on. *)
Ltac split_cmp :=
  match goal with
  | |- context [Qltb ?a ?b] => destruct (Qltb a b) eqn:?
  | |- context [Qgtb ?a ?b] => destruct (Qgtb a b) eqn:?
  | |- context [Qleb ?a ?b] => destruct (Qleb a b) eqn:?
  | |- context [Qgeb ?a ?b] => destruct (Qgeb a b) eqn:?
  end.

Lemma py_min_spec (a b : Q) : py_min a b == Qmin a b.
Proof.
  unfold py_min. destruct (Qltb b a) eqn:E; reflect_cmp.
  - symmetry. apply Q.min_r. lra.
  - symmetry. apply Q.min_l. exact E.
Qed.

Lemma py_max_spec (a b : Q) : py_max a b == Qmax a b.
Proof.
  unfold py_max. destruct (Qgtb b a) eqn:E; reflect_cmp.
  - symmetry. apply Q.max_r. lra.
  - symmetry. apply Q.max_l. exact E.
Qed.

Lemma clamp_bounds (v lo hi : Q) : lo <= hi -> lo <= App.clamp v lo hi <= hi.
Proof.
  intros H. unfold App.clamp, py_max, py_min.
  repeat split_cmp; reflect_cmp; lra.
Qed.

Lemma clamp_low (v lo hi : Q) : v <= lo -> lo <= hi -> App.clamp v lo hi == lo.
Proof.
  intros H1 H2. unfold App.clamp, py_max, py_min.
  repeat split_cmp; reflect_cmp; lra.
Qed.

Lemma clamp_high (v lo hi : Q) : hi <= v -> lo <= hi -> App.clamp v lo hi == hi.
Proof.
  intros H1 H2. unfold App.clamp, py_max, py_min.
  repeat split_cmp; reflect_cmp; lra.
Qed.

Lemma clamp_mono (v w lo hi : Q) :
  v <= w -> App.clamp v lo hi <= App.clamp w lo hi.
Proof.
  intros H. unfold App.clamp, py_max, py_min.
  repeat split_cmp; reflect_cmp; lra.
Qed.

(* ===================================================================== *)
(** * Leak Analyzer, instantaneous mode                                   *)
(* ===================================================================== *)

Example leak_detect_no_rule :
  LeakDetector.detect None 4 20 (Some 12.5) (Some 77.25) =
  [("leak_detected", VBool false); ("confidence", VNum 0);
   ("gps_estimate", VNone); ("pressure", VNum 4); ("flow_rate", VNum 20)].
Proof. reflexivity. Qed.

Example leak_detect_branches :
  get "confidence" (LeakDetector.detect None 1.8 5 None None) = VNum 0.7 /\
  get "confidence" (LeakDetector.detect None 1.2 0 None None) = VNum 0.9 /\
  get "confidence" (LeakDetector.detect None 2.5 60 None None) = VNum 0.8 /\
  get "gps_estimate" (LeakDetector.detect None 1.8 5 (Some 12.5) (Some 77.25)) =
    VDict [("lat", VNum 12.5); ("lon", VNum 77.25);
           ("confidence", VNum 0.7); ("method", VStr "sensor_location")].
Proof. repeat split; reflexivity. Qed.

(** C1, the claim as stated fails: with pressure 1.2 (below 1.5) and flow
    10 the first rule of the cascade has already fired, so the confidence
    is 0.7 and not 0.9; with flow 60 and pressure 1.8 (flow above 50,
    pressure below 3) it is 0.7 as well and not 0.8. *)
Lemma leak_detect_first_rule_wins :
  (1.2 < 1.5 /\
   get "confidence" (LeakDetector.detect None 1.2 10 None None) = VNum 0.7 /\
   ~ 0.7 == 0.9) /\
  (50 < 60 /\ 1.8 < 3 /\
   get "confidence" (LeakDetector.detect None 1.8 60 None None) = VNum 0.7 /\
   ~ 0.7 == 0.8).
Proof.
  repeat split; try reflexivity; intros H; discriminate H.
Qed.

(** C1, amended: the three rules form a first-match cascade.  Pressure
    below 2.0 with positive flow gives detected=true with confidence 0.7;
    otherwise pressure below 1.5 (so the flow is not positive) gives 0.9;
    otherwise flow above 50 with pressure below 3 (so the pressure is at
    least 2.0) gives 0.8. *)
Theorem leak_detect_cascade :
  forall (device_id : option string) (pressure flow_rate : Q)
         (gps_lat gps_lon : option Q),
    let r := LeakDetector.detect device_id pressure flow_rate gps_lat gps_lon in
    (pressure < 2.0 /\ 0 < flow_rate ->
       get "leak_detected" r = VBool true /\ get "confidence" r = VNum 0.7) /\
    (pressure < 1.5 /\ ~ 0 < flow_rate ->
       get "leak_detected" r = VBool true /\ get "confidence" r = VNum 0.9) /\
    (50 < flow_rate /\ 2.0 <= pressure /\ pressure < 3 ->
       get "leak_detected" r = VBool true /\ get "confidence" r = VNum 0.8).
Proof.
  intros device_id pressure flow_rate gps_lat gps_lon r. subst r.
  unfold LeakDetector.detect.
  split; [|split]; intros H; decompose [and] H; clear H.
  all: destruct (pressure <? 2.0) eqn:E1; destruct (flow_rate >? 0) eqn:E2;
       destruct (pressure <? 1.5) eqn:E3; destruct (flow_rate >? 50) eqn:E4;
       destruct (pressure <? 3) eqn:E5; reflect_cmp; simpl;
       try (split; reflexivity); exfalso; lra.
Qed.

(* ===================================================================== *)
(** * Contamination Analyzer, instantaneous mode                          *)
(* ===================================================================== *)

Example contamination_detect_12 :
  ContaminationDetector.detect None 12 25 None None =
  [("contamination_detected", VBool true); ("severity", VStr "critical");
   ("confidence", VNum 0.95);
   ("description",
    VStr "Critical contamination detected: Turbidity 12.00 NTU exceeds safe limit (5 NTU)");
   ("turbidity", VNum 12); ("temperature", VNum 25); ("gps_estimate", VNone);
   ("recommended_action",
    VStr "IMMEDIATE: Stop water supply. Notify health authorities. Conduct emergency water quality test.")].
Proof. reflexivity. Qed.

Example contamination_detect_cold :
  get "description" (ContaminationDetector.detect None 7.5 9.25 None None) =
    VStr "High contamination risk: Turbidity 7.50 NTU above warning threshold. Temperature anomaly: 9.25°C" /\
  get "description" (ContaminationDetector.detect None 1 40 None None) =
    VStr "Temperature anomaly detected: 40.00°C (expected: 15-35°C)".
Proof. split; reflexivity. Qed.

(** The confidence after the temperature bump, for each band. *)
Lemma bumped_confidence :
  py_min (0.95 + 0.1) 1.0 == 1 /\ py_min (0.8 + 0.1) 1.0 == 0.9 /\
  py_min (0.6 + 0.1) 1.0 == 0.7.
Proof. repeat split; reflexivity. Qed.

(** C7: the turbidity bands give (critical, 0.95) from 10 NTU, (high, 0.8)
    on [7,10) and (medium, 0.6) on [5,7), each with detected=true; a
    temperature outside [15,35] then raises the confidence of a detection
    by 0.1, capped at 1.0 (so to 1.0, 0.9 and 0.7), and without a turbidity
    detection it gives detected=true, severity low, confidence 0.5. *)
Theorem contamination_detect_bands :
  forall (device_id : option string) (turbidity temperature : Q)
         (gps_lat gps_lon : option Q),
    let r := ContaminationDetector.detect device_id turbidity temperature
               gps_lat gps_lon in
    let in_range := 15 <= temperature /\ temperature <= 35 in
    let outside := temperature < 15 \/ 35 < temperature in
    (10 <= turbidity ->
       get "contamination_detected" r = VBool true /\
       get "severity" r = VStr "critical" /\
       (in_range -> get "confidence" r = VNum 0.95) /\
       (outside ->
          exists q : Q,
            get "confidence" r = VNum q /\ q == Qmin (0.95 + 0.1) 1 /\ q == 1)) /\
    (7 <= turbidity /\ turbidity < 10 ->
       get "contamination_detected" r = VBool true /\
       get "severity" r = VStr "high" /\
       (in_range -> get "confidence" r = VNum 0.8) /\
       (outside ->
          exists q : Q,
            get "confidence" r = VNum q /\ q == Qmin (0.8 + 0.1) 1 /\ q == 0.9)) /\
    (5 <= turbidity /\ turbidity < 7 ->
       get "contamination_detected" r = VBool true /\
       get "severity" r = VStr "medium" /\
       (in_range -> get "confidence" r = VNum 0.6) /\
       (outside ->
          exists q : Q,
            get "confidence" r = VNum q /\ q == Qmin (0.6 + 0.1) 1 /\ q == 0.7)) /\
    (turbidity < 5 /\ outside ->
       get "contamination_detected" r = VBool true /\
       get "severity" r = VStr "low" /\
       get "confidence" r = VNum 0.5) /\
    (turbidity < 5 /\ in_range ->
       get "contamination_detected" r = VBool false /\
       get "confidence" r = VNum 0).
Proof.
  intros device_id turbidity temperature gps_lat gps_lon r in_range outside.
  subst r in_range outside.
  unfold ContaminationDetector.detect, ContaminationDetector.turbidity_critical,
    ContaminationDetector.turbidity_warning, ContaminationDetector.turbidity_safe,
    ContaminationDetector.temperature_range.
  cbn [fst snd].
  destruct (turbidity >=? 10.0) eqn:E1;
    [|destruct (turbidity >=? 7.0) eqn:E2;
      [|destruct (turbidity >=? 5.0) eqn:E3]];
    (destruct (temperature <? 15) eqn:E4;
     [|destruct (temperature >? 35) eqn:E5]);
    reflect_cmp; cbn [orb andb].
  all: repeat match goal with
         | |- _ /\ _ => split
         | |- _ -> _ => intros ?
         end; try reflexivity;
       try (eexists; split; [reflexivity|split; vm_compute; reflexivity]);
       exfalso;
       repeat match goal with
         | H : _ /\ _ |- _ => destruct H
         | H : _ \/ _ |- _ => destruct H
         end; lra.
Qed.

(* ===================================================================== *)
(** * GPS attachment                                                      *)
(* ===================================================================== *)

Lemma truthy_zero (q : Q) : q == 0 -> truthy (Some q) = false.
Proof.
  intros H. simpl. apply Qeq_eq_bool in H. rewrite H. reflexivity.
Qed.

Lemma leak_gps_untruthy (device_id : option string) (pressure flow_rate : Q)
    (gps_lat gps_lon : option Q) :
  truthy gps_lat && truthy gps_lon = false ->
  LeakDetector.detect device_id pressure flow_rate gps_lat gps_lon =
  LeakDetector.detect device_id pressure flow_rate None None.
Proof.
  intros H. unfold LeakDetector.detect.
  destruct ((pressure <? 2.0) && (flow_rate >? 0)); [|destruct (pressure <? 1.5);
    [|destruct ((flow_rate >? 50) && (pressure <? 3))]].
  all: cbn [andb]; try rewrite H; reflexivity.
Qed.

Lemma contamination_gps_untruthy (device_id : option string)
    (turbidity temperature : Q) (gps_lat gps_lon : option Q) :
  truthy gps_lat && truthy gps_lon = false ->
  ContaminationDetector.detect device_id turbidity temperature gps_lat gps_lon =
  ContaminationDetector.detect device_id turbidity temperature None None.
Proof.
  intros H. unfold ContaminationDetector.detect.
  destruct (turbidity >=? ContaminationDetector.turbidity_critical);
    [|destruct (turbidity >=? ContaminationDetector.turbidity_warning);
      [|destruct (turbidity >=? ContaminationDetector.turbidity_safe)]].
  all: destruct ((temperature <? fst ContaminationDetector.temperature_range)
                 || (temperature >? snd ContaminationDetector.temperature_range)).
  all: cbn [andb]; try rewrite H; reflexivity.
Qed.

Lemma leak_gps_absent (device_id : option string) (pressure flow_rate : Q) :
  get "gps_estimate" (LeakDetector.detect device_id pressure flow_rate None None)
  = VNone.
Proof.
  unfold LeakDetector.detect.
  destruct ((pressure <? 2.0) && (flow_rate >? 0)); [|destruct (pressure <? 1.5);
    [|destruct ((flow_rate >? 50) && (pressure <? 3))]]; reflexivity.
Qed.

Lemma contamination_gps_absent (device_id : option string)
    (turbidity temperature : Q) :
  get "gps_estimate"
    (ContaminationDetector.detect device_id turbidity temperature None None)
  = VNone.
Proof.
  unfold ContaminationDetector.detect.
  destruct (turbidity >=? ContaminationDetector.turbidity_critical);
    [|destruct (turbidity >=? ContaminationDetector.turbidity_warning);
      [|destruct (turbidity >=? ContaminationDetector.turbidity_safe)]].
  all: destruct ((temperature <? fst ContaminationDetector.temperature_range)
                 || (temperature >? snd ContaminationDetector.temperature_range));
       reflexivity.
Qed.

(** C10: in the leak detector and in the contamination detector, a
    latitude or a longitude equal to 0 is treated as an absent coordinate:
    whatever the other coordinate [other] is and whether or not an issue
    is detected, the result is the one computed without coordinates, and
    its gps_estimate is None. *)
Theorem gps_zero_coordinate_dropped :
  forall (device_id : option string) (pressure flow_rate turbidity temperature : Q)
         (zero : Q) (other : option Q),
    zero == 0 ->
    let leak lat lon := LeakDetector.detect device_id pressure flow_rate lat lon in
    let cont lat lon :=
      ContaminationDetector.detect device_id turbidity temperature lat lon in
    (leak (Some zero) other = leak None other /\
     leak other (Some zero) = leak other None /\
     get "gps_estimate" (leak (Some zero) other) = VNone /\
     get "gps_estimate" (leak other (Some zero)) = VNone) /\
    (cont (Some zero) other = cont None other /\
     cont other (Some zero) = cont other None /\
     get "gps_estimate" (cont (Some zero) other) = VNone /\
     get "gps_estimate" (cont other (Some zero)) = VNone).
Proof.
  intros device_id pressure flow_rate turbidity temperature zero other Hz leak cont.
  subst leak cont.
  assert (Hl : truthy (Some zero) && truthy other = false)
    by (rewrite (truthy_zero _ Hz); reflexivity).
  assert (Hr : truthy other && truthy (Some zero) = false)
    by (rewrite (truthy_zero _ Hz); apply andb_false_r).
  assert (Hn : truthy None && truthy other = false) by reflexivity.
  assert (Hm : truthy other && truthy None = false) by apply andb_false_r.
  split; repeat split.
  - rewrite (leak_gps_untruthy _ _ _ _ _ Hl), (leak_gps_untruthy _ _ _ _ _ Hn).
    reflexivity.
  - rewrite (leak_gps_untruthy _ _ _ _ _ Hr), (leak_gps_untruthy _ _ _ _ _ Hm).
    reflexivity.
  - rewrite (leak_gps_untruthy _ _ _ _ _ Hl). apply leak_gps_absent.
  - rewrite (leak_gps_untruthy _ _ _ _ _ Hr). apply leak_gps_absent.
  - rewrite (contamination_gps_untruthy _ _ _ _ _ Hl),
      (contamination_gps_untruthy _ _ _ _ _ Hn). reflexivity.
  - rewrite (contamination_gps_untruthy _ _ _ _ _ Hr),
      (contamination_gps_untruthy _ _ _ _ _ Hm). reflexivity.
  - rewrite (contamination_gps_untruthy _ _ _ _ _ Hl).
    apply contamination_gps_absent.
  - rewrite (contamination_gps_untruthy _ _ _ _ _ Hr).
    apply contamination_gps_absent.
Qed.

(** A sensor on the equator with a detected leak and a detected
    contamination: no location is attached. *)
Lemma gps_zero_coordinate_dropped_equator :
  0 == 0 /\
  get "leak_detected" (LeakDetector.detect None 1.2 10 (Some 0) (Some 36.8)) = VBool true /\
  get "gps_estimate" (LeakDetector.detect None 1.2 10 (Some 0) (Some 36.8)) = VNone /\
  get "contamination_detected"
    (ContaminationDetector.detect None 12 25 (Some 0) (Some 36.8)) = VBool true /\
  get "gps_estimate"
    (ContaminationDetector.detect None 12 25 (Some 0) (Some 36.8)) = VNone.
Proof.
  split; [reflexivity|].
  split; [reflexivity|].
  split;
    [exact (proj1 (proj2 (proj2 (proj1
       (gps_zero_coordinate_dropped None 1.2 10 12 25 0 (Some 36.8) (Qeq_refl 0)))))) |].
  split; [reflexivity|].
  exact (proj1 (proj2 (proj2 (proj2
    (gps_zero_coordinate_dropped None 1.2 10 12 25 0 (Some 36.8) (Qeq_refl 0)))))).
Defined.

(* ===================================================================== *)
(** * Water Quality Scorer                                                *)
(* ===================================================================== *)

Example score_turbidity_values :
  App.score_turbidity None = 60 /\
  App.score_turbidity (Some 0) == 100 /\
  App.score_turbidity (Some 12.5) == 75 /\
  App.score_turbidity (Some 50) == 0 /\
  App.score_turbidity (Some 80) == 0.
Proof. repeat split; reflexivity. Qed.

Lemma score_turbidity_antitone (t1 t2 : Q) :
  t1 <= t2 -> App.score_turbidity (Some t2) <= App.score_turbidity (Some t1).
Proof.
  intros H. unfold App.score_turbidity.
  apply clamp_mono.
  assert (Hc : App.clamp t1 0 50 <= App.clamp t2 0 50) by (apply clamp_mono; exact H).
  revert Hc. generalize (App.clamp t1 0 50), (App.clamp t2 0 50).
  intros a b Hab. lra_div.
Qed.

(** C8: on [0,50] the turbidity score never increases with the turbidity;
    it is exactly 100 at 0 and exactly 0 from 50 on. *)
Theorem score_turbidity_monotone :
  (forall t1 t2 : Q,
     0 <= t1 -> t1 <= t2 -> t2 <= 50 ->
     App.score_turbidity (Some t2) <= App.score_turbidity (Some t1)) /\
  App.score_turbidity (Some 0) == 100 /\
  (forall t : Q, 50 <= t -> App.score_turbidity (Some t) == 0).
Proof.
  split; [|split].
  - intros t1 t2 _ H _. apply score_turbidity_antitone. exact H.
  - reflexivity.
  - intros t H. unfold App.score_turbidity.
    assert (Hc : App.clamp t 0 50 == 50) by (apply clamp_high; lra).
    apply clamp_low; [|lra].
    revert Hc. generalize (App.clamp t 0 50). intros c Hc. lra_div.
Qed.

(* ===================================================================== *)
(** * Anomaly Classifier                                                  *)
(* ===================================================================== *)

(** Unfold the plumbing of a method body. *)
Ltac unfold_method :=
  unfold AnomalyDetector.bind, AnomalyDetector.try_except, AnomalyDetector.lift,
    AnomalyDetector.ret, AnomalyDetector.self_model, AnomalyDetector.self_scaler,
    AnomalyDetector.on_scaler, AnomalyDetector.on_model, AnomalyDetector.on_files
    in *.

(** Split on the outcome of the next library call. *)
Ltac split_call :=
  match goal with
  | |- context [match ?r with Ok _ => _ | Raise _ => _ end] => destruct r eqn:?
  | H : context [match ?r with Ok _ => _ | Raise _ => _ end] |- _ =>
      destruct r eqn:?
  end.

(** Split on the next condition the goal branches on. *)
Ltac split_if :=
  match goal with
  | |- context [if ?b then _ else _] => destruct b
  end.

(** [detect] reads the scaler and the model and writes nothing. *)
Lemma detect_preserves_store {SK : Sklearn}
    (flow_rate pressure turbidity temperature : Q) (device_id : option string)
    (s : AnomalyDetector.store) :
  fst (AnomalyDetector.detect flow_rate pressure turbidity temperature device_id s)
  = s.
Proof.
  unfold AnomalyDetector.detect. unfold_method.
  repeat split_call; try reflexivity.
  repeat split_if; reflexivity.
Qed.

Example anomaly_detect_cold_start :
  snd (AnomalyDetector.detect (SK := Standin.sklearn false) 11 5.5 2.5 25.5 None
         (Standin.cold_start false)) =
  Ok [("anomaly_detected", VBool false); ("anomaly_type", VNone);
      ("severity", VStr "low"); ("confidence", VNum (Qabs (-0.4) * 100));
      ("description", VStr "All parameters within normal range");
      ("recommended_action", VStr "Continue monitoring")].
Proof. reflexivity. Qed.

Example anomaly_detect_cascade :
  let run f p t :=
    match snd (AnomalyDetector.detect (SK := Standin.sklearn false) f p t 25 None
                 (Standin.cold_start false)) with
    | Ok d => (get "anomaly_type" d, get "severity" d)
    | Raise _ => (VNone, VNone)
    end in
  run 10 0.5 2 = (VStr "pressure_anomaly", VStr "critical") /\
  run 10 9 2 = (VStr "pressure_anomaly", VStr "medium") /\
  run 0.5 4 2 = (VStr "low_flow", VStr "high") /\
  run 20 4 12 = (VStr "contamination", VStr "critical") /\
  run 45 4 2 = (VStr "leak", VStr "high") /\
  run 30 4 2 = (VStr "general_anomaly", VStr "medium").
Proof. repeat split; vm_compute; reflexivity. Qed.

(** C2, the claim as stated fails: at pressure 1.2 and flow 10, on a
    detector whose outlier model flags the sample, the type is
    "pressure_anomaly" but the severity is "high", not "critical"
    (1.2 is not below 1). *)
Lemma anomaly_scenario_not_critical :
  match snd (AnomalyDetector.detect (SK := Standin.sklearn false) 10 1.2 2 25 None
               (Standin.cold_start false)) with
  | Ok d =>
      get "anomaly_detected" d = VBool true /\
      get "anomaly_type" d = VStr "pressure_anomaly" /\
      get "severity" d = VStr "high" /\
      get "severity" d <> VStr "critical"
  | Raise _ => False
  end.
Proof.
  vm_compute. repeat split. intros H. discriminate H.
Qed.

(** C2, amended: at pressure 1.2 and flow 10, whatever the other readings
    and whatever the fitted model, a sample the outlier model flags gets
    type "pressure_anomaly" (the pressure rule comes first in the cascade)
    and severity "high". *)
Theorem anomaly_scenario_pressure_high :
  forall (SK : Sklearn) (turbidity temperature : Q) (device_id : option string)
         (s s' : AnomalyDetector.store) (d : dict),
    AnomalyDetector.detect 10 1.2 turbidity temperature device_id s = (s', Ok d) ->
    get "anomaly_detected" d = VBool true ->
    get "anomaly_type" d = VStr "pressure_anomaly" /\
    get "severity" d = VStr "high".
Proof.
  intros SK turbidity temperature device_id s s' d Hrun Hflag.
  unfold AnomalyDetector.detect in Hrun. unfold_method.
  repeat split_call; try discriminate Hrun.
  destruct (_ =? -1)%Z eqn:Ep in Hrun; cbn in Hrun;
    injection Hrun as _ Hd; subst d; cbn in Hflag; try discriminate Hflag.
  split; reflexivity.
Qed.

Lemma anomaly_scenario_pressure_high_cold_start :
  get "anomaly_type"
    [("anomaly_detected", VBool true); ("anomaly_type", VStr "pressure_anomaly");
     ("severity", VStr "high"); ("confidence", VNum (Qabs (-0.6) * 100));
     ("description", VStr "Pressure anomaly detected: 1.20 bar (expected: 2-8 bar)");
     ("recommended_action", VStr "Check pump operation and pipeline integrity")]
  = VStr "pressure_anomaly" /\
  get "severity"
    [("anomaly_detected", VBool true); ("anomaly_type", VStr "pressure_anomaly");
     ("severity", VStr "high"); ("confidence", VNum (Qabs (-0.6) * 100));
     ("description", VStr "Pressure anomaly detected: 1.20 bar (expected: 2-8 bar)");
     ("recommended_action", VStr "Check pump operation and pipeline integrity")]
  = VStr "high".
Proof.
  apply (anomaly_scenario_pressure_high (Standin.sklearn false) 2 25 None
           (Standin.cold_start false) (Standin.cold_start false)).
  - reflexivity.
  - reflexivity.
Defined.

(* ===================================================================== *)
(** * Outlier Model: retraining                                           *)
(* ===================================================================== *)

(** [_save_model] writes files only. *)
Lemma save_model_keeps_estimators {SK : Sklearn} (s : AnomalyDetector.store) :
  AnomalyDetector.model (fst (AnomalyDetector._save_model s)) = AnomalyDetector.model s /\
  AnomalyDetector.scaler (fst (AnomalyDetector._save_model s)) = AnomalyDetector.scaler s.
Proof.
  unfold AnomalyDetector._save_model. unfold_method. cbn.
  destruct (os_makedirs (AnomalyDetector.files s)) as [fs1 [[]|e1]]; cbn;
    [|split; reflexivity].
  destruct (joblib_dump_model (AnomalyDetector.model s) fs1) as [fs2 [[]|e2]]; cbn;
    [|split; reflexivity].
  destruct (joblib_dump_scaler (AnomalyDetector.scaler s) fs2) as [fs3 [[]|e3]]; cbn;
    split; reflexivity.
Qed.

Example update_model_success :
  AnomalyDetector.update_model (SK := Standin.sklearn false)
    [[1; 2; 3; 4]; [3; 4; 5; 6]] (Standin.cold_start false) =
  (@AnomalyDetector.Build_store (Standin.sklearn false)
     (Some [(-1, 1); (-1, 1); (-1, 1); (-1, 1)]) (Some [2; 3; 4; 5])
     {| Standin.model_pkl := Some (Some [(-1, 1); (-1, 1); (-1, 1); (-1, 1)]);
        Standin.scaler_pkl := Some (Some [2; 3; 4; 5]) |},
   Ok true).
Proof. reflexivity. Qed.

(** With a scaler that forgets its statistics before it validates its
    input, retraining on no rows returns False and leaves a scaler that is
    no longer fitted: every later [detect] raises. *)
Example update_model_empty_rows :
  let after :=
    fst (AnomalyDetector.update_model (SK := Standin.sklearn false) []
           (Standin.cold_start false)) in
  snd (AnomalyDetector.update_model (SK := Standin.sklearn false) []
         (Standin.cold_start false)) = Ok false /\
  AnomalyDetector.scaler after = None /\
  snd (AnomalyDetector.detect (SK := Standin.sklearn false) 11 5.5 2.5 25.5 None after)
  = Raise "This StandardScaler instance is not fitted yet.".
Proof. repeat split; reflexivity. Qed.



(* ===================================================================== *)
(** * Orchestrator                                                        *)
(* ===================================================================== *)

(** The classifier flags the sample, the leak detector runs, and the
    serialisation of the merged body meets the [numpy.bool_] of
    [anomaly_detected]: the handler answers 500. *)
Example analyze_pressure_drop :
  snd (App.analyze (SK := Standin.sklearn false) Scenario.pressure_drop
         (Standin.cold_start false)) =
  Ok ([("error", VStr "Object of type bool_ is not JSON serializable")], 500%Z).
Proof. vm_compute. reflexivity. Qed.

(** After a retraining that failed in the scaler the classifier itself
    raises: the answer of [analyze] does depend on the store. *)
Example analyze_after_retrain :
  let data :=
    {| App.device_id := None; App.flow_rate := Some 10;
       App.pressure := Some 1.2; App.turbidity := Some 2;
       App.temperature := Some 25; App.ph := None;
       App.conductivity := None; App.timestamp := None;
       App.gps_lat := None; App.gps_lon := None |} in
  let answer s := snd (App.analyze (SK := Standin.sklearn false) data s) in
  let retrained :=
    fst (AnomalyDetector.update_model (SK := Standin.sklearn false)
           [] (Standin.cold_start false)) in
  answer (Standin.cold_start false) =
    Ok ([("error", VStr "Object of type bool_ is not JSON serializable")], 500%Z) /\
  answer retrained =
    Ok ([("error", VStr "This StandardScaler instance is not fitted yet.")], 500%Z).
Proof. vm_compute. split; reflexivity. Qed.

(** [analyze] leaves the store as it found it. *)
Lemma analyze_preserves_store {SK : Sklearn} (data : App.telemetry)
    (s : AnomalyDetector.store) :
  fst (App.analyze data s) = s.
Proof.
  unfold App.analyze.
  unfold AnomalyDetector.try_except, AnomalyDetector.bind.
  pose proof (detect_preserves_store
                (App.get0 (App.flow_rate data)) (App.get0 (App.pressure data))
                (App.get0 (App.turbidity data)) (App.get0 (App.temperature data))
                (App.device_id data) s) as Hd.
  destruct (AnomalyDetector.detect _ _ _ _ _ s) as [s1 [anomaly_result|e]];
    cbn in Hd; subst s1; [|reflexivity].
  cbv zeta. unfold AnomalyDetector.lift, AnomalyDetector.ret.
  destruct (App.jsonify _ _); reflexivity.
Qed.

(** C9: two calls of the /analyze orchestration on the same sample, with
    nothing but the first call between them, give the same answer: the
    first call leaves the store of the outlier model as it found it, and
    the answer is a function of the sample and of that store. *)
Theorem analyze_idempotent :
  forall (SK : Sklearn) (data : App.telemetry) (s : AnomalyDetector.store),
    let first := App.analyze data s in
    let second := App.analyze data (fst first) in
    fst first = s /\ snd second = snd first /\ fst second = s.
Proof.
  intros SK data s first second. subst first second.
  rewrite (analyze_preserves_store data s).
  repeat split. apply analyze_preserves_store.
Qed.

(* ===================================================================== *)
(** * Leak Analyzer, historical fusion                                    *)
(* ===================================================================== *)

Example leak_history_short :
  LeakDetector.detect_with_history (NP := Standin.numpy) None [5; 4; 3] [20; 20; 20] =
  Ok [("leak_detected", VBool false); ("confidence", VNum 0);
      ("message", VStr "Insufficient data for leak detection")].
Proof. reflexivity. Qed.

Example leak_history_falling_pressure :
  match LeakDetector.detect_with_history (NP := Standin.numpy) None
          Standin.falling_pressure (map (fun p => 30 - p) Standin.falling_pressure) with
  | Ok d =>
      get "leak_detected" d = VBool true /\
      get "confidence" d = VNum (0 + 0.4 + 0.3) /\
      get "correlation" d = VNum (-1) /\
      get "leak_location_estimate" d =
        VDict [("index", VNum 0); ("pressure_drop", VNum (-1 # 2));
               ("method", VStr "pressure_gradient_analysis")]
  | Raise _ => False
  end.
Proof. vm_compute. repeat split. Qed.

(** Against a constant flow the correlation is NaN and only the gradient
    signal fires. *)
Example leak_history_constant_flow :
  match LeakDetector.detect_with_history (NP := Standin.numpy) None
          Standin.falling_pressure Standin.constant_flow with
  | Ok d =>
      get "leak_detected" d = VBool true /\
      get "confidence" d = VNum (0 + 0.4) /\
      get "correlation" d = VNum NaN
  | Raise _ => False
  end.
Proof. vm_compute. repeat split. Qed.



(* ===================================================================== *)
(** * Maintenance Estimator                                               *)
(* ===================================================================== *)

Example maintenance_features :
  MaintenancePredictor._extract_features (NP := Standin.numpy)
    (repeat Standin.steady 30)
  = [Fin 20; Fin 0; Fin 4; Fin 0; Fin 1; Fin (30 / 30)].
Proof. vm_compute. reflexivity. Qed.

Example maintenance_predict_40 :
  MaintenancePredictor.predict (NP := Standin.numpy) (SK := Standin.sklearn false)
    {| Standin.n_features_in := 6; Standin.days := 2.5 |} None
    (repeat Standin.steady 40)
  = Ok [("maintenance_needed", VBool true);
        ("days_until_maintenance", VNum 2.5);
        ("urgency", VStr "high");
        ("confidence", VNum (40 / 100));
        ("recommended_actions",
         VList [VStr "Schedule maintenance within 3 days";
                VStr "Monitor pump performance closely";
                VStr "Check for unusual vibrations or sounds";
                VStr "Review recent sensor readings"])].
Proof. vm_compute. reflexivity. Qed.

(** [__init__] trains its bootstrap model on rows of 5 features, while
    [_extract_features] builds 6: a regressor that checks the width of its
    input raises on every history of 30 records or more. *)
Example maintenance_predict_bootstrap_model :
  MaintenancePredictor.predict (NP := Standin.numpy) (SK := Standin.sklearn false)
    {| Standin.n_features_in := 5; Standin.days := 2.5 |} None
    (repeat Standin.steady 40)
  = Raise "X has a different number of features than RandomForestRegressor is expecting".
Proof. vm_compute. reflexivity. Qed.

(** C6, the claim as stated fails: on 29 records the confidence is 0,
    not min(29/100, 1.0) = 0.29. *)
Lemma maintenance_confidence_29_records :
  List.length (repeat Standin.steady 29) = 29%nat /\
  MaintenancePredictor.predict (NP := Standin.numpy) (SK := Standin.sklearn false)
    {| Standin.n_features_in := 6; Standin.days := 2.5 |} None
    (repeat Standin.steady 29)
  = Ok [("maintenance_needed", VBool false);
        ("days_until_maintenance", VNone);
        ("confidence", VNum 0);
        ("message", VStr "Insufficient historical data (need at least 30 readings)")] /\
  py_min (29 / 100) 1.0 == 0.29 /\
  ~ 0 == py_min (29 / 100) 1.0.
Proof.
  split; [reflexivity|].
  split; [reflexivity|].
  split; [reflexivity|].
  intros H. discriminate H.
Qed.

(** C6, amended: with fewer than 30 records the confidence is 0; with n
    records, n at least 30, whenever the regression model returns a
    prediction the confidence is exactly min(n/100, 1.0), whatever the
    prediction is. *)
Theorem maintenance_confidence :
  forall (NP : Numpy) (SK : Sklearn) (self_model : RandomForestRegressor)
         (device_id : option string)
         (historical_data : list MaintenancePredictor.reading),
    let n := List.length historical_data in
    let r := MaintenancePredictor.predict self_model device_id historical_data in
    ((n < 30)%nat ->
       exists d : dict,
         r = Ok d /\ get "confidence" d = VNum 0 /\
         get "maintenance_needed" d = VBool false) /\
    ((30 <= n)%nat ->
       forall (prediction : num) (others : list num),
         regressor_predict self_model
           [MaintenancePredictor._extract_features historical_data]
           = Ok (prediction :: others) ->
         exists d : dict,
           r = Ok d /\
           get "confidence" d = VNum (py_min (inject_Z (Z.of_nat n) / 100) 1.0) /\
           py_min (inject_Z (Z.of_nat n) / 100) 1.0
             == Qmin (inject_Z (Z.of_nat n) / 100) 1).
Proof.
  intros NP SK self_model device_id historical_data n r. subst n r.
  unfold MaintenancePredictor.predict.
  split.
  - intros H. apply Nat.ltb_lt in H. rewrite H.
    eexists. repeat split.
  - intros H prediction others Hp. apply Nat.ltb_ge in H. rewrite H.
    rewrite Hp. cbn [rbind index0].
    eexists. split; [reflexivity|]. split; [reflexivity|].
    rewrite py_min_spec. apply Q.min_compat; [reflexivity | lra].
Qed.

(* ===================================================================== *)
(** * Insufficient history                                                *)
(* ===================================================================== *)

Lemma leak_history_insufficient {NP : Numpy} (device_id : option string)
    (pressure_data flow_data : list Q) :
  (List.length pressure_data < 10 \/ List.length flow_data < 10)%nat ->
  exists d : dict,
    LeakDetector.detect_with_history device_id pressure_data flow_data = Ok d /\
    lookup "leak_detected" d = Some (VBool false) /\
    lookup "confidence" d = Some (VNum 0) /\
    lookup "message" d = Some (VStr "Insufficient data for leak detection").
Proof.
  intros H. unfold LeakDetector.detect_with_history.
  assert (E : (List.length pressure_data <? 10)%nat
              || (List.length flow_data <? 10)%nat = true).
  { apply orb_true_iff. destruct H as [H|H]; [left|right]; apply Nat.ltb_lt; exact H. }
  rewrite E. eexists. repeat split.
Qed.

Lemma maintenance_history_insufficient {NP : Numpy} {SK : Sklearn}
    (self_model : RandomForestRegressor) (device_id : option string)
    (historical_data : list MaintenancePredictor.reading) :
  (List.length historical_data < 30)%nat ->
  exists d : dict,
    MaintenancePredictor.predict self_model device_id historical_data = Ok d /\
    lookup "maintenance_needed" d = Some (VBool false) /\
    lookup "confidence" d = Some (VNum 0) /\
    lookup "message" d =
      Some (VStr "Insufficient historical data (need at least 30 readings)").
Proof.
  intros H. unfold MaintenancePredictor.predict.
  apply Nat.ltb_lt in H. rewrite H. eexists. repeat split.
Qed.

Lemma pattern_history_insufficient {NP : Numpy}
    (turbidity_history temperature_history : list Q) :
  (List.length turbidity_history < 5)%nat ->
  ContaminationDetector.detect_pattern turbidity_history temperature_history
  = [("contamination_detected", VBool false); ("message", VStr "Insufficient data")].
Proof.
  intros H. unfold ContaminationDetector.detect_pattern.
  apply Nat.ltb_lt in H. rewrite H. reflexivity.
Qed.

Example pattern_spike :
  ContaminationDetector.detect_pattern (NP := Standin.numpy)
    [1; 1.2; 0.9; 1.1; 1; 9] [20; 20; 20; 20; 20; 20]
  = [("contamination_detected", VBool true); ("spike_detected", VBool true);
     ("increasing_trend", VBool false); ("current_turbidity", VNum 9);
     ("baseline_turbidity", VNum (26 # 25)); ("confidence", VNum 0.7)].
Proof. vm_compute. reflexivity. Qed.

(** C4, at the input where the code departs from the claim: on three
    turbidity readings [detect_pattern] returns without raising, with
    detected=false, but the result has no confidence field at all, while
    the leak and maintenance results on short histories carry
    confidence 0. *)
Theorem pattern_insufficient_has_no_confidence :
  forall NP : Numpy,
    let r := ContaminationDetector.detect_pattern [1; 2; 3] [20; 21; 22] in
    r = [("contamination_detected", VBool false); ("message", VStr "Insufficient data")] /\
    lookup "contamination_detected" r = Some (VBool false) /\
    lookup "confidence" r = None /\
    (exists d,
       LeakDetector.detect_with_history None [1; 2; 3] [20; 21; 22] = Ok d /\
       lookup "confidence" d = Some (VNum 0)) /\
    (forall (SK : Sklearn) (self_model : RandomForestRegressor),
     exists d,
       MaintenancePredictor.predict self_model None (repeat Standin.steady 3) = Ok d /\
       lookup "confidence" d = Some (VNum 0)).
Proof.
  intros NP r. subst r.
  split; [reflexivity|]. split; [reflexivity|]. split; [reflexivity|].
  split.
  - eexists. split; reflexivity.
  - intros SK self_model. eexists. split; reflexivity.
Qed.

(* ===================================================================== *)
(** * Water Quality Scorer: sub-scores, index and classification          *)
(* ===================================================================== *)

Lemma round_half_even_upper (q : Q) (k : Z) :
  q <= inject_Z k -> (round_half_even q <= k)%Z.
Proof.
  intros H. unfold round_half_even.
  pose proof (Qfloor_le q) as Hfl.
  assert (Hk : (Qfloor q <= k)%Z).
  { rewrite <- (Qfloor_Z k). apply Qfloor_resp_le. exact H. }
  destruct (Z.eq_dec (Qfloor q) k) as [E|E].
  - assert (Hr : q - inject_Z (Qfloor q) < 1 # 2) by (rewrite E; lra).
    apply Qltb_lt in Hr. rewrite Hr. lia.
  - repeat split_if; lia.
Qed.

Lemma round_half_even_lower (q : Q) (k : Z) :
  inject_Z k <= q -> (k <= round_half_even q)%Z.
Proof.
  intros H. unfold round_half_even.
  assert (Hk : (k <= Qfloor q)%Z).
  { rewrite <- (Qfloor_Z k). apply Qfloor_resp_le. exact H. }
  repeat split_if; lia.
Qed.

Lemma round2_upper (q : Q) (k : Z) :
  q * 100 <= inject_Z k -> round2 q <= inject_Z k / 100.
Proof.
  intros H. unfold round2.
  apply round_half_even_upper in H.
  assert (Hq : inject_Z (round_half_even (q * 100)) <= inject_Z k)
    by (rewrite <- Zle_Qle; exact H).
  revert Hq. generalize (inject_Z (round_half_even (q * 100))), (inject_Z k).
  intros a b Hab. lra_div.
Qed.

Lemma round2_lower (q : Q) (k : Z) :
  inject_Z k <= q * 100 -> inject_Z k / 100 <= round2 q.
Proof.
  intros H. unfold round2.
  apply round_half_even_lower in H.
  assert (Hq : inject_Z k <= inject_Z (round_half_even (q * 100)))
    by (rewrite <- Zle_Qle; exact H).
  revert Hq. generalize (inject_Z (round_half_even (q * 100))), (inject_Z k).
  intros a b Hab. lra_div.
Qed.

Lemma score_turbidity_range (turbidity : option Q) :
  0 <= App.score_turbidity turbidity <= 100.
Proof.
  destruct turbidity as [t|]; cbn [App.score_turbidity]; [apply clamp_bounds|]; lra.
Qed.

Lemma score_conductivity_range (conductivity : option Q) :
  0 <= App.score_conductivity conductivity <= 100.
Proof.
  destruct conductivity as [c|]; cbn [App.score_conductivity];
    [apply clamp_bounds|]; lra.
Qed.

Lemma score_temperature_range (temperature : option Q) :
  0 <= App.score_temperature temperature <= 100.
Proof.
  destruct temperature as [t|]; cbn [App.score_temperature]; [|lra].
  destruct ((15 <=? t) && (t <=? 30)); [lra | apply clamp_bounds; lra].
Qed.

Lemma score_ph_range (ph : option Q) : 0 <= App.score_ph ph <= 100.
Proof.
  destruct ph as [p|]; cbn [App.score_ph]; [|lra].
  cbv zeta. destruct (Qabs (p - 7.4) >=? 3); [lra | apply clamp_bounds; lra].
Qed.

Lemma score_turbidity_zero (t : Q) : 50 <= t -> App.score_turbidity (Some t) == 0.
Proof.
  intros H. unfold App.score_turbidity.
  assert (Hc : App.clamp t 0 50 == 50) by (apply clamp_high; lra).
  apply clamp_low; [|lra].
  revert Hc. generalize (App.clamp t 0 50). intros c Hc. lra_div.
Qed.

(** The water-quality index before rounding. *)
Lemma weighted_index_range (a b c d : Q) :
  0 <= a <= 100 -> 0 <= b <= 100 -> 0 <= c <= 100 -> 0 <= d <= 100 ->
  0 <= a * 0.3 + b * 0.3 + c * 0.2 + d * 0.2 <= 100.
Proof. intros; lra. Qed.

Lemma wqi_entry (turbidity ph temperature conductivity : option Q) :
  App.calculate_water_quality turbidity ph temperature conductivity =
  ("wqi",
   VNum (round2 (App.score_turbidity turbidity * 0.3 + App.score_ph ph * 0.3
                 + App.score_temperature temperature * 0.2
                 + App.score_conductivity conductivity * 0.2)))
  :: App.classify_wqi
       (round2 (App.score_turbidity turbidity * 0.3 + App.score_ph ph * 0.3
                + App.score_temperature temperature * 0.2
                + App.score_conductivity conductivity * 0.2)).
Proof. reflexivity. Qed.

Lemma classify_wqi_status (wqi : Q) :
  get "status" (("wqi", VNum wqi) :: App.classify_wqi wqi) =
  VStr (if wqi >=? 80 then "good" else if wqi >=? 60 then "average" else "bad").
Proof.
  unfold App.classify_wqi. destruct (wqi >=? 80); [|destruct (wqi >=? 60)]; reflexivity.
Qed.

Example water_quality_values :
  App.calculate_water_quality (Some 2) (Some 7.4) (Some 25) None =
    [("wqi", VNum (round2 (96 * 0.3 + 100 * 0.3 + 100 * 0.2 + 65 * 0.2)));
     ("status", VStr "good"); ("color", VStr "green"); ("indicator", VStr "🟢");
     ("message", VStr "Water quality is good and safe for supply.")] /\
  round2 (96 * 0.3 + 100 * 0.3 + 100 * 0.2 + 65 * 0.2) == 91.8 /\
  get "status" (App.calculate_water_quality (Some 60) (Some 7.4) (Some 20) (Some 300))
    = VStr "average" /\
  get "status" (App.calculate_water_quality None None None None) = VStr "average" /\
  App.score_temperature (Some 30) == 100 /\
  App.score_temperature (Some 31) < 50 /\
  App.score_ph (Some 7.4) == 100 /\
  App.score_conductivity (Some 875) == 50.
Proof. repeat split; vm_compute; reflexivity. Qed.

(** X1: [classify_wqi] splits the index into three bands without a gap:
    "good" exactly from 80 up, "average" exactly on [60, 80), "bad" exactly
    below 60; the colour follows the band. *)
Theorem classify_wqi_bands :
  forall wqi : Q,
    (80 <= wqi <->
       get "status" (App.classify_wqi wqi) = VStr "good") /\
    (60 <= wqi /\ wqi < 80 <->
       get "status" (App.classify_wqi wqi) = VStr "average") /\
    (wqi < 60 <->
       get "status" (App.classify_wqi wqi) = VStr "bad") /\
    (get "color" (App.classify_wqi wqi) =
       VStr (if wqi >=? 80 then "green" else if wqi >=? 60 then "yellow" else "red")).
Proof.
  intros wqi. unfold App.classify_wqi.
  destruct (wqi >=? 80) eqn:E1; [|destruct (wqi >=? 60) eqn:E2]; reflect_cmp;
    cbn; repeat split; intros; try reflexivity; try discriminate; try lra;
    exfalso; lra.
Qed.

(** X2: every sub-score lies in [0, 100], for every reading and also when
    the reading is missing. *)
Theorem sub_scores_bounded :
  forall v : option Q,
    0 <= App.score_turbidity v <= 100 /\
    0 <= App.score_conductivity v <= 100 /\
    0 <= App.score_temperature v <= 100 /\
    0 <= App.score_ph v <= 100.
Proof.
  intros v. split; [apply score_turbidity_range|].
  split; [apply score_conductivity_range|].
  split; [apply score_temperature_range | apply score_ph_range].
Qed.

(** X3: the index [calculate_water_quality] reports (the weighted sum
    rounded to two decimals) lies in [0, 100], and the status it reports is
    the band of that rounded index. *)
Theorem water_quality_index_bounded :
  forall turbidity ph temperature conductivity : option Q,
  exists wqi : Q,
    get "wqi" (App.calculate_water_quality turbidity ph temperature conductivity)
      = VNum wqi /\
    0 <= wqi <= 100 /\
    get "status" (App.calculate_water_quality turbidity ph temperature conductivity)
      = VStr (if wqi >=? 80 then "good" else if wqi >=? 60 then "average" else "bad").
Proof.
  intros turbidity ph temperature conductivity.
  rewrite wqi_entry.
  eexists. split; [reflexivity|]. split; [|apply classify_wqi_status].
  pose proof (weighted_index_range _ _ _ _
                (score_turbidity_range turbidity) (score_ph_range ph)
                (score_temperature_range temperature)
                (score_conductivity_range conductivity)) as [Hlo Hhi].
  split.
  - apply Qle_trans with (inject_Z 0 / 100); [vm_compute; discriminate|].
    apply round2_lower. unfold inject_Z. lra.
  - apply Qle_trans with (inject_Z 10000 / 100); [|vm_compute; discriminate].
    apply round2_upper. unfold inject_Z. lra.
Qed.

Lemma Qabs_cases (x : Q) : (0 <= x /\ Qabs x == x) \/ (x <= 0 /\ Qabs x == - x).
Proof.
  destruct (Qlt_le_dec x 0) as [H|H].
  - right. split; [lra|]. apply Qabs_neg. lra.
  - left. split; [exact H|]. apply Qabs_pos. exact H.
Qed.

(** Split on a comparison of the goal whose operands hold no conditional. *)
Ltac no_if t :=
  lazymatch t with
  | context [if _ then _ else _] => fail
  | _ => idtac
  end.

Ltac split_inner_cmp :=
  match goal with
  | |- context [Qltb ?a ?b] => no_if a; no_if b; destruct (Qltb a b) eqn:?
  | |- context [Qgtb ?a ?b] => no_if a; no_if b; destruct (Qgtb a b) eqn:?
  | |- context [Qleb ?a ?b] => no_if a; no_if b; destruct (Qleb a b) eqn:?
  | |- context [Qgeb ?a ?b] => no_if a; no_if b; destruct (Qgeb a b) eqn:?
  end.

(** Unfold the clamps of a score and decide every comparison. *)
Ltac clamp_cases :=
  unfold App.clamp, py_max, py_min;
  repeat split_inner_cmp; reflect_cmp; try lra_div.




(** The pH score in terms of the deviation, once its sign is known. *)
Lemma score_ph_cases (ph : Q) :
  exists a : Q,
    ((7.4 <= ph /\ a == ph - 7.4) \/ (ph <= 7.4 /\ a == 7.4 - ph)) /\
    App.score_ph (Some ph) ==
      (if a >=? 3 then 0 else App.clamp (100 - (a / 3) * 100) 0 100).
Proof.
  exists (Qabs (ph - 7.4)). split; [|reflexivity].
  destruct (Qabs_cases (ph - 7.4)) as [[Hs Ha]|[Hs Ha]]; [left|right];
    (split; [lra|]); rewrite Ha; lra.
Qed.

(** X6: the pH score peaks at 7.4 and nowhere else, is 0 exactly from a
    distance of 3 on (pH at most 4.4 or at least 10.4), and in between never
    increases as the pH moves away from 7.4, on either side. *)
Theorem score_ph_profile :
  (forall ph : Q, App.score_ph (Some ph) == 100 <-> ph == 7.4) /\
  (forall ph : Q, App.score_ph (Some ph) == 0 <-> ph <= 4.4 \/ 10.4 <= ph) /\
  (forall ph ph' : Q,
     7.4 <= ph -> ph <= ph' ->
     App.score_ph (Some ph') <= App.score_ph (Some ph)) /\
  (forall ph ph' : Q,
     ph <= ph' -> ph' <= 7.4 ->
     App.score_ph (Some ph) <= App.score_ph (Some ph')).
Proof.
  split; [|split; [|split]].
  - intros ph. destruct (score_ph_cases ph) as (a & Ha & Hs). rewrite Hs. clear Hs.
    destruct (a >=? 3) eqn:E; reflect_cmp.
    + split; intros H; exfalso; destruct Ha as [[H1 H2]|[H1 H2]]; lra.
    + split; intros H.
      * revert H. clamp_cases; intros H; destruct Ha as [[H1 H2]|[H1 H2]]; lra_div.
      * assert (Hz : a == 0) by (destruct Ha as [[H1 H2]|[H1 H2]]; lra).
        clamp_cases.
  - intros ph. destruct (score_ph_cases ph) as (a & Ha & Hs). rewrite Hs. clear Hs.
    destruct (a >=? 3) eqn:E; reflect_cmp.
    + split; intros H; [|reflexivity].
      destruct Ha as [[H1 H2]|[H1 H2]]; [right|left]; lra.
    + split; intros H.
      * exfalso. revert H. clamp_cases; intros H; lra_div.
      * exfalso. destruct Ha as [[H1 H2]|[H1 H2]]; destruct H; lra.
  - intros ph ph' H1 H2.
    destruct (score_ph_cases ph) as (a & Ha & Hs). rewrite Hs. clear Hs.
    destruct (score_ph_cases ph') as (b & Hb & Hs). rewrite Hs. clear Hs.
    assert (Hab : a <= b).
    { destruct Ha as [[? ?]|[? ?]]; destruct Hb as [[? ?]|[? ?]]; lra. }
    clear Ha Hb.
    destruct (a >=? 3) eqn:E1; destruct (b >=? 3) eqn:E2; reflect_cmp;
      try lra; clamp_cases.
  - intros ph ph' H1 H2.
    destruct (score_ph_cases ph) as (a & Ha & Hs). rewrite Hs. clear Hs.
    destruct (score_ph_cases ph') as (b & Hb & Hs). rewrite Hs. clear Hs.
    assert (Hab : b <= a).
    { destruct Ha as [[? ?]|[? ?]]; destruct Hb as [[? ?]|[? ?]]; lra. }
    clear Ha Hb.
    destruct (a >=? 3) eqn:E1; destruct (b >=? 3) eqn:E2; reflect_cmp;
      try lra; clamp_cases.
Qed.

(** X7: water with a turbidity of 50 NTU or more is never classified
    "good", whatever the other readings are: its index is at most 70. *)
Theorem turbid_water_never_good :
  forall (turbidity : Q) (ph temperature conductivity : option Q),
    50 <= turbidity ->
    get "status"
      (App.calculate_water_quality (Some turbidity) ph temperature conductivity)
      <> VStr "good" /\
    exists wqi : Q,
      get "wqi"
        (App.calculate_water_quality (Some turbidity) ph temperature conductivity)
        = VNum wqi /\ wqi <= 70.
Proof.
  intros turbidity ph temperature conductivity H.
  rewrite wqi_entry.
  pose proof (score_turbidity_zero turbidity H) as Ht.
  pose proof (score_ph_range ph) as [_ Hp].
  pose proof (score_temperature_range temperature) as [_ Hm].
  pose proof (score_conductivity_range conductivity) as [_ Hc].
  set (w := round2 _).
  assert (Hw : w <= 70).
  { apply Qle_trans with (inject_Z 7000 / 100); [|vm_compute; discriminate].
    apply round2_upper. unfold inject_Z.
    revert Ht Hp Hm Hc.
    generalize (App.score_turbidity (Some turbidity)), (App.score_ph ph),
      (App.score_temperature temperature), (App.score_conductivity conductivity).
    intros a b c d Ha Hb Hc Hd. lra. }
  split.
  - rewrite classify_wqi_status.
    assert (E : (w >=? 80) = false) by (apply Qgeb_lt; lra).
    rewrite E. destruct (w >=? 60); intros Hbad; discriminate Hbad.
  - exists w. split; [reflexivity | exact Hw].
Qed.

Lemma turbid_water_never_good_at_60 :
  50 <= 60 /\
  get "status"
    (App.calculate_water_quality (Some 60) (Some 7.4) (Some 20) (Some 300))
    <> VStr "good".
Proof.
  split; [lra|].
  exact (proj1 (turbid_water_never_good 60 (Some 7.4) (Some 20) (Some 300)
                  ltac:(lra))).
Defined.

(* ===================================================================== *)
(** * Anomaly Classifier: the cascade and what a result can hold          *)
(* ===================================================================== *)

(** Every result [detect] returns, in terms of the verdict of the outlier
    model, its score, and the rule table. *)
Lemma detect_result {SK : Sklearn}
    (flow_rate pressure turbidity temperature : Q) (device_id : option string)
    (s s' : AnomalyDetector.store) (d : dict) :
  AnomalyDetector.detect flow_rate pressure turbidity temperature device_id s
    = (s', Ok d) ->
  exists (flagged : bool) (score : num),
    let fm := CascadeSpec.first_match CascadeSpec.rules flow_rate pressure turbidity in
    d = [("anomaly_detected", VBool flagged);
         ("anomaly_type", if flagged then VStr (fst fm) else VNone);
         ("severity", VStr (if flagged then snd fm else "low"));
         ("confidence", VNum (num_min (num_mul (num_abs score) 100) 100));
         ("description",
          VStr (if flagged
                then AnomalyDetector._generate_description (fst fm)
                       flow_rate pressure turbidity temperature
                else "All parameters within normal range"));
         ("recommended_action",
          VStr (if flagged
                then AnomalyDetector._get_recommended_action (fst fm) (snd fm)
                else "Continue monitoring"))].
Proof.
  intros Hrun. unfold AnomalyDetector.detect in Hrun. unfold_method.
  repeat split_call; try discriminate Hrun.
  match goal with
  | H : index0 _ = Ok ?sc, H' : index0 _ = Ok ?p0 |- _ =>
      match type of sc with num => exists (p0 =? -1)%Z, sc end
  end.
  cbv zeta.
  change (fst (AnomalyDetector.normal_ranges "pressure")) with 2 in Hrun.
  change (snd (AnomalyDetector.normal_ranges "pressure")) with 8 in Hrun.
  change (fst (AnomalyDetector.normal_ranges "flow_rate") * 0.5) with 2.5 in Hrun.
  change (snd (AnomalyDetector.normal_ranges "turbidity")) with 5 in Hrun.
  unfold CascadeSpec.rules, CascadeSpec.first_match.
  cbn [CascadeSpec.applies CascadeSpec.anomaly_type CascadeSpec.severity
       CascadeSpec.pressure_rule CascadeSpec.low_flow_rule
       CascadeSpec.contamination_rule CascadeSpec.leak_rule].
  destruct (_ =? -1)%Z.
  - destruct ((pressure <? 2) || (pressure >? 8));
      [|destruct (flow_rate <? 2.5);
        [|destruct (turbidity >? 5);
          [|destruct (Qabs (flow_rate - pressure * 5) >? 20)]]];
      injection Hrun as _ Hd; subst d; reflexivity.
  - injection Hrun as _ Hd; subst d; reflexivity.
Qed.

Lemma cascade_outcomes (flow_rate pressure turbidity : Q) :
  let fm := CascadeSpec.first_match CascadeSpec.rules flow_rate pressure turbidity in
  existsb (String.eqb (fst fm))
    ["pressure_anomaly"; "low_flow"; "contamination"; "leak"; "general_anomaly"] = true /\
  existsb (String.eqb (snd fm)) ["medium"; "high"; "critical"] = true.
Proof.
  unfold CascadeSpec.rules, CascadeSpec.first_match.
  cbn [CascadeSpec.applies CascadeSpec.anomaly_type CascadeSpec.severity
       CascadeSpec.pressure_rule CascadeSpec.low_flow_rule
       CascadeSpec.contamination_rule CascadeSpec.leak_rule].
  cbv zeta.
  repeat match goal with
    | |- context [if ?b then _ else _] =>
        lazymatch b with
        | context [if _ then _ else _] => fail
        | _ => destruct b
        end
    end; split; reflexivity.
Qed.



(** X9: what a result of [detect] can hold.  A sample that is not flagged
    has no type, severity "low" and the fixed "normal range" texts.  A
    flagged sample has one of the five types (never "turbidity_anomaly")
    and a severity among medium, high and critical (never "low").  The
    confidence is NaN or lies in [0, 100]. *)
Theorem anomaly_result_invariants :
  forall (SK : Sklearn) (flow_rate pressure turbidity temperature : Q)
         (device_id : option string) (s s' : AnomalyDetector.store) (d : dict),
    AnomalyDetector.detect flow_rate pressure turbidity temperature device_id s
      = (s', Ok d) ->
    (exists flagged : bool,
       get "anomaly_detected" d = VBool flagged /\
       (flagged = false ->
          get "anomaly_type" d = VNone /\
          get "severity" d = VStr "low" /\
          get "description" d = VStr "All parameters within normal range" /\
          get "recommended_action" d = VStr "Continue monitoring") /\
       (flagged = true ->
          in_strs (get "anomaly_type" d)
            ["pressure_anomaly"; "low_flow"; "contamination"; "leak";
             "general_anomaly"] = true /\
          in_strs (get "severity" d) ["medium"; "high"; "critical"] = true)) /\
    (get "confidence" d = VNum NaN \/
     exists q : Q, get "confidence" d = VNum q /\ 0 <= q <= 100).
Proof.
  intros SK flow_rate pressure turbidity temperature device_id s s' d Hrun.
  destruct (detect_result _ _ _ _ _ _ _ _ Hrun) as (flagged & score & Hd).
  cbv zeta in Hd. subst d. split.
  - exists flagged. split; [reflexivity|]. split; intros Hf; subst flagged.
    + repeat split.
    + apply (cascade_outcomes flow_rate pressure turbidity).
  - destruct score as [x|]; [right|left; reflexivity].
    cbn [get get_default lookup String.eqb Ascii.eqb Bool.eqb].
    unfold num_abs, num_mul, num_lift2, num_min, num_ltb.
    pose proof (Qabs_nonneg x) as Hx.
    destruct (100 <? Qabs x * 100) eqn:E; reflect_cmp;
      eexists; (split; [reflexivity|]); lra.
Qed.

Lemma anomaly_result_invariants_cold_start :
  exists flagged : bool,
    get "anomaly_detected"
      [("anomaly_detected", VBool false); ("anomaly_type", VNone);
       ("severity", VStr "low"); ("confidence", VNum (Qabs (-0.4) * 100));
       ("description", VStr "All parameters within normal range");
       ("recommended_action", VStr "Continue monitoring")] = VBool flagged.
Proof.
  destruct (anomaly_result_invariants (Standin.sklearn false) 11 5.5 2.5 25.5 None
              (Standin.cold_start false) (Standin.cold_start false) _ eq_refl)
    as [(flagged & Hf & _) _].
  exists flagged. exact Hf.
Defined.

(* ===================================================================== *)
(** * Leak and contamination analyzers: when they fire, what they attach  *)
(* ===================================================================== *)

(** Every result of the instantaneous leak detector. *)
Lemma leak_detect_result (device_id : option string) (pressure flow_rate : Q)
    (gps_lat gps_lon : option Q) :
  exists (detected : bool) (confidence : Q),
    LeakDetector.detect device_id pressure flow_rate gps_lat gps_lon =
      [("leak_detected", VBool detected);
       ("confidence", VNum confidence);
       ("gps_estimate",
        if detected && truthy gps_lat && truthy gps_lon then
          VDict [("lat", of_opt gps_lat); ("lon", of_opt gps_lon);
                 ("confidence", VNum confidence);
                 ("method", VStr "sensor_location")]
        else VNone);
       ("pressure", VNum pressure);
       ("flow_rate", VNum flow_rate)] /\
    (detected = true <->
       pressure < 1.5 \/ (pressure < 2 /\ 0 < flow_rate)
       \/ (50 < flow_rate /\ pressure < 3)) /\
    (detected = false -> confidence = 0) /\
    (detected = true -> confidence = 0.7 \/ confidence = 0.9 \/ confidence = 0.8).
Proof.
  unfold LeakDetector.detect.
  destruct (pressure <? 2.0) eqn:E1; destruct (flow_rate >? 0) eqn:E2;
    destruct (pressure <? 1.5) eqn:E3; destruct (flow_rate >? 50) eqn:E4;
    destruct (pressure <? 3) eqn:E5; reflect_cmp; cbn [andb];
    match goal with
    | |- exists _ _, (_ :: (_, VNum (Fin ?q)) :: _) = _ /\ _ =>
        match goal with
        | |- exists _ _, ((_, VBool ?b) :: _) = _ /\ _ => exists b, q
        end
    end; (split; [reflexivity|]);
    (split; [split; [intros H; try discriminate H; lra
                    | intros H; try reflexivity; exfalso; lra]|]);
    (split; [intros H; try reflexivity; discriminate H|]);
    intros H; try discriminate H; auto.
Qed.

(** X10: the instantaneous leak detector reports a leak exactly when the
    pressure is below 1.5, or below 2 with a positive flow, or below 3 with
    a flow above 50.  So a pressure of 3 bar or more is never a leak, and a
    pressure below 1.5 always is.  The confidence is 0 without a leak and
    0.7, 0.8 or 0.9 with one. *)
Theorem leak_detect_fires_iff :
  forall (device_id : option string) (pressure flow_rate : Q)
         (gps_lat gps_lon : option Q),
    let r := LeakDetector.detect device_id pressure flow_rate gps_lat gps_lon in
    (get "leak_detected" r = VBool true <->
       pressure < 1.5 \/ (pressure < 2 /\ 0 < flow_rate)
       \/ (50 < flow_rate /\ pressure < 3)) /\
    (3 <= pressure -> get "leak_detected" r = VBool false) /\
    (get "leak_detected" r = VBool false <-> get "confidence" r = VNum 0) /\
    (get "leak_detected" r = VBool true ->
       get "confidence" r = VNum 0.7 \/ get "confidence" r = VNum 0.9
       \/ get "confidence" r = VNum 0.8).
Proof.
  intros device_id pressure flow_rate gps_lat gps_lon r. subst r.
  destruct (leak_detect_result device_id pressure flow_rate gps_lat gps_lon)
    as (det & conf & Hr & Hiff & H0 & H1).
  rewrite Hr. cbn [get get_default lookup String.eqb Ascii.eqb Bool.eqb].
  split; [|split; [|split]].
  - split.
    + intros H. injection H as H. apply Hiff. exact H.
    + intros H. apply Hiff in H. rewrite H. reflexivity.
  - intros H. destruct det; [|reflexivity].
    exfalso. assert (Ht : true = true) by reflexivity.
    apply Hiff in Ht. lra.
  - split.
    + intros H. injection H as H. rewrite (H0 H). reflexivity.
    + intros H. destruct det; [|reflexivity].
      destruct (H1 eq_refl) as [E|[E|E]]; rewrite E in H; discriminate H.
  - intros H. injection H as H.
    destruct (H1 H) as [E|[E|E]]; rewrite E; auto.
Qed.

(** Every result of the contamination detector. *)
Lemma contamination_detect_result (device_id : option string)
    (turbidity temperature : Q) (gps_lat gps_lon : option Q) :
  exists (detected : bool) (severity : string) (confidence : Q) (description : string),
    ContaminationDetector.detect device_id turbidity temperature gps_lat gps_lon =
      [("contamination_detected", VBool detected);
       ("severity", VStr severity);
       ("confidence", VNum confidence);
       ("description", VStr description);
       ("turbidity", VNum turbidity);
       ("temperature", VNum temperature);
       ("gps_estimate",
        if detected && truthy gps_lat && truthy gps_lon then
          VDict [("lat", of_opt gps_lat); ("lon", of_opt gps_lon);
                 ("confidence", VNum confidence);
                 ("method", VStr "sensor_location")]
        else VNone);
       ("recommended_action", VStr (ContaminationDetector._get_action severity))] /\
    (detected = false <-> turbidity < 5 /\ 15 <= temperature /\ temperature <= 35) /\
    (detected = false -> confidence = 0 /\ severity = "low" /\ description = "") /\
    (detected = true -> 0.5 <= confidence /\ confidence <= 1) /\
    severity =
      (if turbidity >=? 10.0 then "critical"
       else if turbidity >=? 7.0 then "high"
       else if turbidity >=? 5.0 then "medium" else "low").
Proof.
  unfold ContaminationDetector.detect, ContaminationDetector.turbidity_critical,
    ContaminationDetector.turbidity_warning, ContaminationDetector.turbidity_safe,
    ContaminationDetector.temperature_range.
  cbn [fst snd].
  destruct (turbidity >=? 10.0) eqn:E1;
    [|destruct (turbidity >=? 7.0) eqn:E2;
      [|destruct (turbidity >=? 5.0) eqn:E3]];
    (destruct (temperature <? 15) eqn:E4;
     [|destruct (temperature >? 35) eqn:E5]);
    reflect_cmp; cbn [orb andb];
    match goal with
    | |- exists _ _ _ _,
           ((_, VBool ?b) :: (_, VStr ?sv) :: (_, VNum (Fin ?q)) :: (_, VStr ?ds) :: _)
           = _ /\ _ => exists b, sv, q, ds
    end; (split; [reflexivity|]).
  all: split;
    [split; [intros H; try discriminate H; repeat split; lra
            | intros H; try reflexivity; exfalso; lra]|].
  all: split; [intros H; try discriminate H; repeat split; reflexivity|].
  all: split; [|reflexivity].
  all: intros H; try discriminate H; try (split; lra).
  all: split; rewrite py_min_spec;
       (apply Q.min_glb; lra) || (apply Qle_trans with 1.0; [apply Q.le_min_r|lra]).
Qed.

Lemma truthy_iff (o : option Q) :
  truthy o = true <-> exists q : Q, o = Some q /\ ~ q == 0.
Proof.
  destruct o as [q|]; cbn [truthy].
  - rewrite negb_true_iff. split.
    + intros H. exists q. split; [reflexivity|]. apply Qeq_bool_neq. exact H.
    + intros (q' & Hq & Hn). injection Hq as Hq. subst q'.
      destruct (Qeq_bool q 0) eqn:E; [|reflexivity].
      apply Qeq_bool_eq in E. contradiction.
  - split; [discriminate|]. intros (q & Hq & _). discriminate Hq.
Qed.

Lemma gps_attached (detected : bool) (confidence : Q) (gps_lat gps_lon : option Q) :
  let g :=
    if detected && truthy gps_lat && truthy gps_lon then
      VDict [("lat", of_opt gps_lat); ("lon", of_opt gps_lon);
             ("confidence", VNum confidence);
             ("method", VStr "sensor_location")]
    else VNone in
  (g <> VNone <->
     detected = true /\
     exists lat lon : Q,
       gps_lat = Some lat /\ gps_lon = Some lon /\ ~ lat == 0 /\ ~ lon == 0 /\
       g = VDict [("lat", VNum lat); ("lon", VNum lon);
                  ("confidence", VNum confidence);
                  ("method", VStr "sensor_location")]).
Proof.
  intros g. subst g.
  destruct detected; cbn [andb].
  2:{ split; [intros H; contradiction | intros [H _]; discriminate H]. }
  destruct (truthy gps_lat) eqn:Ela; cbn [andb].
  2:{ split; [intros H; contradiction|].
      intros (_ & lat & lon & Hla & _ & Hn & _).
      assert (Ht : truthy gps_lat = true) by (apply truthy_iff; eauto).
      congruence. }
  destruct (truthy gps_lon) eqn:Elo.
  2:{ split; [intros H; contradiction|].
      intros (_ & lat & lon & _ & Hlo & _ & Hn & _).
      assert (Ht : truthy gps_lon = true) by (apply truthy_iff; eauto).
      congruence. }
  apply truthy_iff in Ela. apply truthy_iff in Elo.
  destruct Ela as (lat & Hla & Hnla). destruct Elo as (lon & Hlo & Hnlo).
  subst gps_lat gps_lon. cbn [of_opt].
  split.
  - intros _. split; [reflexivity|]. exists lat, lon. auto.
  - intros _ H. discriminate H.
Qed.

(** X11: both instantaneous detectors attach a gps_estimate exactly when
    they detect an issue and both coordinates are present and non-zero; the
    estimate then repeats the two coordinates and carries the confidence of
    the result itself. *)
Theorem gps_estimate_attached_iff :
  forall (device_id : option string) (pressure flow_rate turbidity temperature : Q)
         (gps_lat gps_lon : option Q),
    let leak := LeakDetector.detect device_id pressure flow_rate gps_lat gps_lon in
    let cont :=
      ContaminationDetector.detect device_id turbidity temperature gps_lat gps_lon in
    (get "gps_estimate" leak <> VNone <->
       get "leak_detected" leak = VBool true /\
       exists lat lon : Q,
         gps_lat = Some lat /\ gps_lon = Some lon /\ ~ lat == 0 /\ ~ lon == 0 /\
         get "gps_estimate" leak =
           VDict [("lat", VNum lat); ("lon", VNum lon);
                  ("confidence", get "confidence" leak);
                  ("method", VStr "sensor_location")]) /\
    (get "gps_estimate" cont <> VNone <->
       get "contamination_detected" cont = VBool true /\
       exists lat lon : Q,
         gps_lat = Some lat /\ gps_lon = Some lon /\ ~ lat == 0 /\ ~ lon == 0 /\
         get "gps_estimate" cont =
           VDict [("lat", VNum lat); ("lon", VNum lon);
                  ("confidence", get "confidence" cont);
                  ("method", VStr "sensor_location")]).
Proof.
  intros device_id pressure flow_rate turbidity temperature gps_lat gps_lon leak cont.
  subst leak cont. split.
  - destruct (leak_detect_result device_id pressure flow_rate gps_lat gps_lon)
      as (det & conf & Hr & _).
    rewrite Hr. cbn [get get_default lookup String.eqb Ascii.eqb Bool.eqb].
    pose proof (gps_attached det conf gps_lat gps_lon) as H. cbv zeta in H.
    rewrite H. split.
    + intros [Hd Hx]. subst det. split; [reflexivity | exact Hx].
    + intros [Hd Hx]. injection Hd as Hd. split; [exact Hd | exact Hx].
  - destruct (contamination_detect_result device_id turbidity temperature
                gps_lat gps_lon) as (det & sev & conf & desc & Hr & _).
    rewrite Hr. cbn [get get_default lookup String.eqb Ascii.eqb Bool.eqb].
    pose proof (gps_attached det conf gps_lat gps_lon) as H. cbv zeta in H.
    rewrite H. split.
    + intros [Hd Hx]. subst det. split; [reflexivity | exact Hx].
    + intros [Hd Hx]. injection Hd as Hd. split; [exact Hd | exact Hx].
Qed.

Lemma get_action_known (severity : string) :
  existsb (String.eqb severity) ["critical"; "high"; "medium"; "low"] = true ->
  ContaminationDetector._get_action severity <> "Monitor and investigate".
Proof.
  intros H. cbn [existsb] in H.
  unfold ContaminationDetector._get_action.
  destruct (String.eqb severity "critical"); [discriminate|].
  destruct (String.eqb severity "high"); [discriminate|].
  destruct (String.eqb severity "medium"); [discriminate|].
  destruct (String.eqb severity "low"); [discriminate|].
  discriminate H.
Qed.

(** X12: what a result of the contamination detector can hold.  Nothing
    is detected exactly when the turbidity is below 5 and the temperature
    within [15, 35]; the result then has confidence 0, severity "low" and an
    empty description.  A detection has a confidence in [0.5, 1].  The
    severity is always the turbidity band (low below 5), so a detection of
    severity "low" is a temperature-only one, and the recommended action is
    never the fallback text. *)
Theorem contamination_detect_invariants :
  forall (device_id : option string) (turbidity temperature : Q)
         (gps_lat gps_lon : option Q),
    let r := ContaminationDetector.detect device_id turbidity temperature
               gps_lat gps_lon in
    (get "contamination_detected" r = VBool false <->
       turbidity < 5 /\ 15 <= temperature /\ temperature <= 35) /\
    (get "contamination_detected" r = VBool false ->
       get "confidence" r = VNum 0 /\ get "severity" r = VStr "low" /\
       get "description" r = VStr "") /\
    (get "contamination_detected" r = VBool true ->
       exists q : Q, get "confidence" r = VNum q /\ 0.5 <= q /\ q <= 1) /\
    get "severity" r =
      VStr (if turbidity >=? 10.0 then "critical"
            else if turbidity >=? 7.0 then "high"
            else if turbidity >=? 5.0 then "medium" else "low") /\
    get "recommended_action" r <> VStr "Monitor and investigate".
Proof.
  intros device_id turbidity temperature gps_lat gps_lon r. subst r.
  destruct (contamination_detect_result device_id turbidity temperature
              gps_lat gps_lon) as (det & sev & conf & desc & Hr & Hiff & H0 & H1 & Hs).
  rewrite Hr. cbn [get get_default lookup String.eqb Ascii.eqb Bool.eqb].
  split; [|split; [|split; [|split]]].
  - split.
    + intros H. injection H as H. apply Hiff. exact H.
    + intros H. apply Hiff in H. rewrite H. reflexivity.
  - intros H. injection H as H. destruct (H0 H) as (E1 & E2 & E3).
    rewrite E1, E2, E3. repeat split.
  - intros H. injection H as H. exists conf. split; [reflexivity | apply H1; exact H].
  - rewrite Hs. reflexivity.
  - intros H. injection H as H. revert H. apply get_action_known.
    rewrite Hs. repeat split_if; reflexivity.
Qed.

(* ===================================================================== *)
(** * Orchestrator: how the detectors compose                             *)
(* ===================================================================== *)

Lemma leak_detect_truthy (device_id : option string) (pressure flow_rate : Q)
    (gps_lat gps_lon : option Q) :
  dict_truthy (LeakDetector.detect device_id pressure flow_rate gps_lat gps_lon) = true.
Proof.
  destruct (leak_detect_result device_id pressure flow_rate gps_lat gps_lon)
    as (det & conf & Hr & _).
  rewrite Hr. reflexivity.
Qed.

Lemma contamination_detect_truthy (device_id : option string)
    (turbidity temperature : Q) (gps_lat gps_lon : option Q) :
  dict_truthy
    (ContaminationDetector.detect device_id turbidity temperature gps_lat gps_lon)
  = true.
Proof.
  destruct (contamination_detect_result device_id turbidity temperature
              gps_lat gps_lon) as (det & sev & conf & desc & Hr & _).
  rewrite Hr. reflexivity.
Qed.

(** The answer of [analyze] when the classifier raised. *)
Lemma analyze_error {SK : Sklearn} (data : App.telemetry)
    (s : AnomalyDetector.store) (e : exn) :
  snd (AnomalyDetector.detect (App.get0 (App.flow_rate data))
         (App.get0 (App.pressure data)) (App.get0 (App.turbidity data))
         (App.get0 (App.temperature data)) (App.device_id data) s) = Raise e ->
  snd (App.analyze data s) = Ok ([("error", VStr e)], 500%Z).
Proof.
  intros He. unfold App.analyze.
  unfold AnomalyDetector.try_except, AnomalyDetector.bind.
  destruct (AnomalyDetector.detect _ _ _ _ _ s) as [s1 [d|e1]]; cbn in He;
    [discriminate He|].
  injection He as He. subst e1. reflexivity.
Qed.

(** The answer of [analyze] when the classifier returned: whichever
    analyzer ran, the merged body still holds the classifier's
    [anomaly_detected], the serialisation raises on it and the handler
    answers with the message. *)
Lemma analyze_not_serializable {SK : Sklearn} (data : App.telemetry)
    (s s' : AnomalyDetector.store) (d : dict) :
  AnomalyDetector.detect (App.get0 (App.flow_rate data))
    (App.get0 (App.pressure data)) (App.get0 (App.turbidity data))
    (App.get0 (App.temperature data)) (App.device_id data) s = (s', Ok d) ->
  exists e : exn, snd (App.analyze data s) = Ok ([("error", VStr e)], 500%Z).
Proof.
  intros Hrun.
  destruct (detect_result _ _ _ _ _ _ _ _ Hrun) as (flagged & score & Hd).
  cbv zeta in Hd. rewrite Hd in Hrun. clear Hd.
  unfold App.analyze.
  unfold AnomalyDetector.try_except, AnomalyDetector.bind.
  rewrite Hrun.
  pose proof (leak_detect_truthy (App.device_id data) (App.get0 (App.pressure data))
                (App.get0 (App.flow_rate data))
                (App.gps_lat data) (App.gps_lon data)) as HL.
  pose proof (contamination_detect_truthy (App.device_id data)
                (App.get0 (App.turbidity data)) (App.get0 (App.temperature data))
                (App.gps_lat data) (App.gps_lon data)) as HC.
  set (leak := LeakDetector.detect _ _ _ _ _) in *.
  set (cont := ContaminationDetector.detect _ _ _ _ _) in *.
  set (wq := App.calculate_water_quality _ _ _ _).
  set (fm := CascadeSpec.first_match _ _ _ _).
  clearbody leak cont wq fm.
  cbn [get get_default lookup String.eqb Ascii.eqb Bool.eqb value_truthy].
  destruct flagged; cbn [andb]; [|eexists; reflexivity].
  destruct (in_strs (VStr (fst fm)) ["leak"; "pressure_anomaly"]);
    destruct (in_strs (VStr (fst fm)) ["contamination"; "turbidity_anomaly"]);
    rewrite ?HL, ?HC; eexists; reflexivity.
Qed.

(** X13: [analyze] never raises and never answers 200.  When the
    classifier raises, the answer is status 500 with the single field
    "error" carrying its message.  When the classifier returns, the merged
    body holds the numpy boolean of anomaly_detected, its serialisation
    raises, and the answer is again status 500 with the single field
    "error": no sample gets its analysis back. *)
Theorem analyze_answers :
  forall (SK : Sklearn) (data : App.telemetry) (s : AnomalyDetector.store),
    let run :=
      AnomalyDetector.detect (App.get0 (App.flow_rate data))
        (App.get0 (App.pressure data)) (App.get0 (App.turbidity data))
        (App.get0 (App.temperature data)) (App.device_id data) s in
    (forall e : exn,
       snd run = Raise e ->
       snd (App.analyze data s) = Ok ([("error", VStr e)], 500%Z)) /\
    (forall d : dict,
       snd run = Ok d ->
       exists e : exn,
         snd (App.analyze data s) = Ok ([("error", VStr e)], 500%Z)) /\
    (exists e : exn,
       snd (App.analyze data s) = Ok ([("error", VStr e)], 500%Z)) /\
    (forall (body : dict) (status : Z),
       snd (App.analyze data s) = Ok (body, status) -> status = 500%Z).
Proof.
  intros SK data s run.
  assert (Hret : forall d : dict,
             snd run = Ok d ->
             exists e : exn,
               snd (App.analyze data s) = Ok ([("error", VStr e)], 500%Z)).
  { intros d Hd.
    apply (analyze_not_serializable data s (fst run) d).
    fold run. destruct run as [s1 r]. cbn in Hd |- *. subst r. reflexivity. }
  assert (Hall : exists e : exn,
             snd (App.analyze data s) = Ok ([("error", VStr e)], 500%Z)).
  { destruct (snd run) as [d|e] eqn:Er.
    - apply (Hret d). reflexivity.
    - exists e. apply analyze_error. exact Er. }
  split; [|split; [|split]].
  - intros e He. apply analyze_error. exact He.
  - exact Hret.
  - exact Hall.
  - intros body status Hb. destruct Hall as (e & He).
    rewrite He in Hb. injection Hb as _ Hb. symmetry. exact Hb.
Qed.

Example analyze_turbid_sample :
  snd (App.analyze (SK := Standin.sklearn false) Scenario.turbid
         (Standin.cold_start false)) =
  Ok ([("error", VStr "Object of type bool_ is not JSON serializable")], 500%Z).
Proof. vm_compute. reflexivity. Qed.

Ltac unfold_cascade :=
  unfold CascadeSpec.rules, CascadeSpec.first_match;
  cbn [CascadeSpec.applies CascadeSpec.anomaly_type CascadeSpec.severity
       CascadeSpec.pressure_rule CascadeSpec.low_flow_rule
       CascadeSpec.contamination_rule CascadeSpec.leak_rule];
  cbv zeta.

Lemma cascade_contamination (flow_rate pressure turbidity : Q) :
  let fm := CascadeSpec.first_match CascadeSpec.rules flow_rate pressure turbidity in
  existsb (String.eqb (fst fm)) ["contamination"; "turbidity_anomaly"] = true ->
  5 < turbidity /\ 2 <= pressure /\ pressure <= 8 /\ 2.5 <= flow_rate /\
  snd fm = (if turbidity >? 10 then "critical"
            else if turbidity >? 7 then "high" else "medium") /\
  existsb (String.eqb (fst fm)) ["leak"; "pressure_anomaly"] = false.
Proof.
  unfold_cascade.
  destruct (pressure <? 2) eqn:E1; destruct (pressure >? 8) eqn:E2;
    destruct (flow_rate <? 2.5) eqn:E3; destruct (turbidity >? 5) eqn:E4;
    destruct (Qabs (flow_rate - pressure * 5) >? 20) eqn:E5;
    cbn [orb fst snd]; intros H; try discriminate H; reflect_cmp;
    repeat split; try lra; reflexivity.
Qed.

(** X16: the two graders of turbidity.  On a sample the classifier types
    "contamination" (the samples on which the orchestrator also runs the
    contamination detector) the turbidity is above 5 and the contamination
    detector always reports a detection.  The two severities agree except
    at the two band edges: the classifier tests "> 10" and "> 7" where the
    contamination detector tests ">= 10" and ">= 7", so at exactly 10 NTU
    the classifier says "high" and the detector "critical", and at exactly
    7 NTU "medium" and "high". *)
Theorem contamination_severity_band_edges :
  forall (SK : Sklearn) (flow_rate pressure turbidity temperature : Q)
         (device_id : option string) (gps_lat gps_lon : option Q)
         (s s' : AnomalyDetector.store) (d : dict),
    AnomalyDetector.detect flow_rate pressure turbidity temperature device_id s
      = (s', Ok d) ->
    get "anomaly_type" d = VStr "contamination" ->
    let c := ContaminationDetector.detect device_id turbidity temperature
               gps_lat gps_lon in
    5 < turbidity /\
    get "contamination_detected" c = VBool true /\
    (~ turbidity == 10 -> ~ turbidity == 7 ->
       get "severity" d = get "severity" c) /\
    (turbidity == 10 ->
       get "severity" d = VStr "high" /\ get "severity" c = VStr "critical") /\
    (turbidity == 7 ->
       get "severity" d = VStr "medium" /\ get "severity" c = VStr "high").
Proof.
  intros SK flow_rate pressure turbidity temperature device_id gps_lat gps_lon
         s s' d Hrun Hty c.
  destruct (detect_result _ _ _ _ _ _ _ _ Hrun) as (flagged & score & Hd).
  cbv zeta in Hd.
  pose proof (cascade_contamination flow_rate pressure turbidity) as Hct.
  cbv zeta in Hct.
  set (fm := CascadeSpec.first_match _ _ _ _) in *.
  subst d.
  cbn [get get_default lookup String.eqb Ascii.eqb Bool.eqb] in Hty |- *.
  destruct flagged; [|discriminate Hty].
  injection Hty as Hty. rewrite Hty in Hct.
  destruct (Hct eq_refl) as (Ht & _ & _ & _ & Hsev & _).
  subst c.
  destruct (contamination_detect_result device_id turbidity temperature
              gps_lat gps_lon)
    as (det & sev & conf & desc & Hr & Hiff & _ & _ & Hs).
  rewrite Hr.
  cbn [get get_default lookup String.eqb Ascii.eqb Bool.eqb].
  rewrite Hsev, Hs.
  assert (Hdet : det = true).
  { destruct det; [reflexivity|]. exfalso.
    assert (Hx : false = false) by reflexivity. apply Hiff in Hx. lra. }
  subst det.
  destruct (turbidity >? 10) eqn:E1; destruct (turbidity >? 7) eqn:E2;
    destruct (turbidity >=? 10.0) eqn:E3; destruct (turbidity >=? 7.0) eqn:E4;
    destruct (turbidity >=? 5.0) eqn:E5; reflect_cmp; try (exfalso; lra).
  all: repeat match goal with
         | |- _ /\ _ => split
         | |- _ -> _ => intros ?
         end; try reflexivity; try assumption; exfalso;
       repeat match goal with
         | H : ~ _ == _ |- _ => apply H; lra
         end; lra.
Qed.

Lemma contamination_severity_band_edges_at_10 :
  let d :=
    match snd (AnomalyDetector.detect (SK := Standin.sklearn false) 20 4 10 25
                 (Some "pump-7") (Standin.cold_start false)) with
    | Ok d => d
    | Raise _ => []
    end in
  get "anomaly_type" d = VStr "contamination" /\
  get "severity" d = VStr "high" /\
  get "severity"
    (ContaminationDetector.detect (Some "pump-7") 10 25 (Some 12.5) (Some 77.25))
  = VStr "critical".
Proof.
  split; [reflexivity|].
  refine (proj1 (proj2 (proj2 (proj2
    (contamination_severity_band_edges (Standin.sklearn false) 20 4 10 25
       (Some "pump-7") (Some 12.5) (Some 77.25)
       (Standin.cold_start false) (Standin.cold_start false) _
       eq_refl eq_refl)))) _).
  reflexivity.
Defined.

(* ===================================================================== *)
(** * Leak localisation over several sensors                              *)
(* ===================================================================== *)

Example localize_three_sensors :
  LeakLocalizer.localize_leak Scenario.three_sensors VNone =
  Ok (VDict [("estimated_location",
              VDict [("lat", VNum 12.75); ("lon", VNum 77.5)]);
             ("confidence", VNum 0.7); ("method", VStr "pressure_minimum")]) /\
  LeakLocalizer.localize_leak (rev Scenario.three_sensors) VNone =
  Ok (VDict [("estimated_location", VDict [("lat", VNone); ("lon", VNone)]);
             ("confidence", VNum 0.7); ("method", VStr "pressure_minimum")]).
Proof. split; reflexivity. Qed.

(** The index [argmin_from] returns, over the part already scanned
    followed by the part still to scan. *)
Lemma argmin_from_spec (l pre : list Q) (best : nat) (bv : Q) :
  nth_error pre best = Some bv ->
  (forall x, In x pre -> bv <= x) ->
  (forall j y, (j < best)%nat -> nth_error pre j = Some y -> bv < y) ->
  exists m : Q,
    nth_error (pre ++ l) (LeakLocalizer.argmin_from (List.length pre) best bv l)
      = Some m /\
    (forall x, In x (pre ++ l) -> m <= x) /\
    (forall j y,
       (j < LeakLocalizer.argmin_from (List.length pre) best bv l)%nat ->
       nth_error (pre ++ l) j = Some y -> m < y).
Proof.
  revert pre best bv.
  induction l as [|x r IH]; intros pre best bv Hb Hmin Hfirst.
  - cbn [LeakLocalizer.argmin_from]. rewrite app_nil_r. exists bv. auto.
  - cbn [LeakLocalizer.argmin_from].
    assert (Hlen : List.length (pre ++ [x]) = S (List.length pre))
      by (rewrite length_app; cbn; lia).
    assert (Hsplit : (pre ++ x :: r = (pre ++ [x]) ++ r)%list)
      by (rewrite <- app_assoc; reflexivity).
    assert (Hbl : (best < List.length pre)%nat)
      by (apply nth_error_Some; rewrite Hb; discriminate).
    rewrite Hsplit, <- Hlen.
    destruct (x <? bv) eqn:E; reflect_cmp.
    + apply IH.
      * rewrite nth_error_app2 by lia. rewrite Nat.sub_diag. reflexivity.
      * intros y Hy. apply in_app_or in Hy. destruct Hy as [Hy|[Hy|[]]].
        -- specialize (Hmin y Hy). lra.
        -- subst y. lra.
      * intros j y Hj Hy. rewrite nth_error_app1 in Hy by lia.
        apply nth_error_In in Hy. specialize (Hmin y Hy). lra.
    + apply IH.
      * rewrite nth_error_app1 by lia. exact Hb.
      * intros y Hy. apply in_app_or in Hy. destruct Hy as [Hy|[Hy|[]]].
        -- apply Hmin. exact Hy.
        -- subst y. exact E.
      * intros j y Hj Hy. rewrite nth_error_app1 in Hy by lia.
        apply (Hfirst j y Hj Hy).
Qed.

(** [np_argmin] returns the first index holding the least value. *)
Lemma np_argmin_spec (l : list Q) :
  l <> [] ->
  exists m : Q,
    nth_error l (LeakLocalizer.np_argmin l) = Some m /\
    (forall x, In x l -> m <= x) /\
    (forall j y, (j < LeakLocalizer.np_argmin l)%nat -> nth_error l j = Some y -> m < y).
Proof.
  destruct l as [|x r]; [intros H; contradiction|]. intros _.
  unfold LeakLocalizer.np_argmin.
  apply (argmin_from_spec r [x] 0 x).
  - reflexivity.
  - intros y [Hy|[]]. subst y. lra.
  - intros j y Hj. lia.
Qed.

Lemma pressures_of_ok (readings : list LeakLocalizer.sensor_reading) :
  (forall s, In s readings -> LeakLocalizer.pressure s <> None) ->
  exists ps : list Q,
    LeakLocalizer.pressures_of readings = Ok ps /\
    Forall2 (fun s p => LeakLocalizer.pressure s = Some p) readings ps.
Proof.
  induction readings as [|s rest IH]; intros H.
  - exists []. split; [reflexivity | constructor].
  - destruct IH as (ps & Hps & HF); [intros s' Hs'; apply H; right; exact Hs'|].
    cbn [LeakLocalizer.pressures_of].
    destruct (LeakLocalizer.pressure s) as [p|] eqn:Ep.
    + exists (p :: ps). rewrite Hps. split; [reflexivity|].
      constructor; assumption.
    + exfalso. apply (H s); [left; reflexivity | exact Ep].
Qed.

Lemma pressures_of_missing (readings : list LeakLocalizer.sensor_reading) :
  (exists s, In s readings /\ LeakLocalizer.pressure s = None) ->
  LeakLocalizer.pressures_of readings = Raise "'pressure'".
Proof.
  induction readings as [|s rest IH]; intros (s0 & Hin & Hnone).
  - destruct Hin.
  - cbn [LeakLocalizer.pressures_of].
    destruct (LeakLocalizer.pressure s) as [p|] eqn:Ep; [|reflexivity].
    destruct Hin as [Hin|Hin]; [subst s0; congruence|].
    rewrite IH by (exists s0; auto). reflexivity.
Qed.

Lemma Forall2_nth_error_r {A B : Type} (R : A -> B -> Prop)
    (l : list A) (l' : list B) (k : nat) (b : B) :
  Forall2 R l l' -> nth_error l' k = Some b ->
  exists a, nth_error l k = Some a /\ R a b.
Proof.
  intros HF. revert k. induction HF as [|a0 b0 l l' HR HF IH]; intros k Hk.
  - destruct k; discriminate Hk.
  - destruct k as [|k]; cbn in Hk |- *.
    + injection Hk as Hk. subst b0. exists a0. auto.
    + apply IH. exact Hk.
Qed.

Lemma Forall2_nth_error_l {A B : Type} (R : A -> B -> Prop)
    (l : list A) (l' : list B) (k : nat) (a : A) :
  Forall2 R l l' -> nth_error l k = Some a ->
  exists b, nth_error l' k = Some b /\ R a b.
Proof.
  intros HF. revert k. induction HF as [|a0 b0 l l' HR HF IH]; intros k Hk.
  - destruct k; discriminate Hk.
  - destruct k as [|k]; cbn in Hk |- *.
    + injection Hk as Hk. subst a0. exists b0. auto.
    + apply IH. exact Hk.
Qed.

(** With every pressure present, [localize_leak] returns. *)
Lemma localize_leak_total (sensor_readings : list LeakLocalizer.sensor_reading)
    (pipeline_network : value) :
  sensor_readings <> [] ->
  (forall s, In s sensor_readings -> LeakLocalizer.pressure s <> None) ->
  exists v : value,
    LeakLocalizer.localize_leak sensor_readings pipeline_network = Ok v.
Proof.
  intros Hne Hall.
  destruct (pressures_of_ok sensor_readings Hall) as (ps & Hps & HF).
  assert (Hpne : ps <> []).
  { intros E. subst ps. inversion HF. subst. apply Hne. reflexivity. }
  destruct (np_argmin_spec ps Hpne) as (m & Hk & _).
  destruct (Forall2_nth_error_r _ _ _ _ _ HF Hk) as (leak_sensor & Hs & _).
  unfold LeakLocalizer.localize_leak.
  destruct sensor_readings as [|s0 rest]; [contradiction|].
  rewrite Hps. cbn [rbind]. rewrite Hs. eexists. reflexivity.
Qed.

(** X17: on a non-empty list of readings that all have a pressure,
    [localize_leak] returns the position of the first sensor holding the
    lowest pressure: no sensor has a lower pressure and every earlier one
    has a strictly higher pressure.  The confidence is always 0.7, also
    when that sensor has no coordinates, and the pipeline network plays no
    part. *)
Theorem localize_leak_minimum :
  forall (sensor_readings : list LeakLocalizer.sensor_reading)
         (pipeline_network : value),
    sensor_readings <> [] ->
    (forall s, In s sensor_readings -> LeakLocalizer.pressure s <> None) ->
    exists (k : nat) (leak_sensor : LeakLocalizer.sensor_reading) (m : Q),
      nth_error sensor_readings k = Some leak_sensor /\
      LeakLocalizer.pressure leak_sensor = Some m /\
      (forall s p, In s sensor_readings -> LeakLocalizer.pressure s = Some p -> m <= p) /\
      (forall j s p,
         (j < k)%nat -> nth_error sensor_readings j = Some s ->
         LeakLocalizer.pressure s = Some p -> m < p) /\
      LeakLocalizer.localize_leak sensor_readings pipeline_network =
        Ok (VDict
              [("estimated_location",
                VDict [("lat", of_opt (LeakLocalizer.gps_lat leak_sensor));
                       ("lon", of_opt (LeakLocalizer.gps_lon leak_sensor))]);
               ("confidence", VNum 0.7);
               ("method", VStr "pressure_minimum")]).
Proof.
  intros sensor_readings pipeline_network Hne Hall.
  destruct (pressures_of_ok sensor_readings Hall) as (ps & Hps & HF).
  assert (Hpne : ps <> []).
  { intros E. subst ps. inversion HF. subst. apply Hne. reflexivity. }
  destruct (np_argmin_spec ps Hpne) as (m & Hk & Hmin & Hfirst).
  destruct (Forall2_nth_error_r _ _ _ _ _ HF Hk) as (leak_sensor & Hs & Hp).
  exists (LeakLocalizer.np_argmin ps), leak_sensor, m.
  split; [exact Hs|]. split; [exact Hp|]. split; [|split].
  - intros s p Hin Hsp.
    apply In_nth_error in Hin. destruct Hin as (j & Hj).
    destruct (Forall2_nth_error_l _ _ _ _ _ HF Hj) as (p' & Hp' & Hsp').
    rewrite Hsp in Hsp'. injection Hsp' as Hsp'. subst p'.
    apply Hmin. apply (nth_error_In _ _ Hp').
  - intros j s p Hj Hsj Hsp.
    destruct (Forall2_nth_error_l _ _ _ _ _ HF Hsj) as (p' & Hp' & Hsp').
    rewrite Hsp in Hsp'. injection Hsp' as Hsp'. subst p'.
    apply (Hfirst j p Hj Hp').
  - unfold LeakLocalizer.localize_leak.
    destruct sensor_readings as [|s0 rest]; [contradiction|].
    rewrite Hps. cbn [rbind]. rewrite Hs. reflexivity.
Qed.

Lemma localize_leak_minimum_three_sensors :
  exists (k : nat) (leak_sensor : LeakLocalizer.sensor_reading) (m : Q),
    nth_error Scenario.three_sensors k = Some leak_sensor /\
    LeakLocalizer.pressure leak_sensor = Some m /\
    (forall s p,
       In s Scenario.three_sensors -> LeakLocalizer.pressure s = Some p -> m <= p).
Proof.
  destruct (localize_leak_minimum Scenario.three_sensors VNone)
    as (k & leak_sensor & m & H1 & H2 & H3 & _).
  - discriminate.
  - intros s [H|[H|[H|[]]]]; subst s; discriminate.
  - exists k, leak_sensor, m. auto.
Defined.

(** X18: [localize_leak] answers None on an empty list of readings and
    raises KeyError('pressure') as soon as one reading, wherever it stands
    in the list, has no pressure; it fails in no other way. *)
Theorem localize_leak_edge_cases :
  forall pipeline_network : value,
    LeakLocalizer.localize_leak [] pipeline_network = Ok VNone /\
    (forall sensor_readings : list LeakLocalizer.sensor_reading,
       (exists s, In s sensor_readings /\ LeakLocalizer.pressure s = None) ->
       LeakLocalizer.localize_leak sensor_readings pipeline_network
       = Raise "'pressure'") /\
    (forall (sensor_readings : list LeakLocalizer.sensor_reading) (e : exn),
       LeakLocalizer.localize_leak sensor_readings pipeline_network = Raise e ->
       e = "'pressure'" /\
       exists s, In s sensor_readings /\ LeakLocalizer.pressure s = None).
Proof.
  intros pipeline_network. split; [reflexivity|]. split.
  - intros sensor_readings Hmiss.
    unfold LeakLocalizer.localize_leak.
    destruct sensor_readings as [|s0 rest].
    + destruct Hmiss as (s & [] & _).
    + rewrite (pressures_of_missing _ Hmiss). reflexivity.
  - intros sensor_readings e He.
    assert (Hdec : (forall s, In s sensor_readings -> LeakLocalizer.pressure s <> None)
                   \/ exists s, In s sensor_readings /\ LeakLocalizer.pressure s = None).
    { clear He. induction sensor_readings as [|s rest IH].
      - left. intros s [].
      - destruct (LeakLocalizer.pressure s) eqn:Ep.
        + destruct IH as [IH|(s1 & Hin & Hn)].
          * left. intros s1 [H|H]; [subst s1; congruence | apply IH; exact H].
          * right. exists s1. split; [right; exact Hin | exact Hn].
        + right. exists s. split; [left; reflexivity | exact Ep]. }
    destruct Hdec as [Hall|Hmiss].
    + exfalso. destruct sensor_readings as [|s0 rest]; [discriminate He|].
      destruct (localize_leak_total (s0 :: rest) pipeline_network
                  ltac:(discriminate) Hall) as (v & Hv).
      rewrite Hv in He. discriminate He.
    + unfold LeakLocalizer.localize_leak in He.
      destruct sensor_readings as [|s0 rest]; [discriminate He|].
      rewrite (pressures_of_missing _ Hmiss) in He. cbn [rbind] in He.
      injection He as He. subst e. split; [reflexivity | exact Hmiss].
Qed.

(* ===================================================================== *)
(** * Contamination patterns over a history                               *)
(* ===================================================================== *)

(** X19: on a turbidity history of at least 5 readings [detect_pattern]
    reports the last reading as current_turbidity and the mean of all but
    the last as baseline; the confidence is 0.7 on a spike and 0.5
    otherwise; a spike alone makes a detection; the trend is never
    considered on fewer than 10 readings, where detected = spike; and a
    detection without a spike needs at least 10 readings and a last reading
    above 5 NTU. *)
Theorem detect_pattern_verdict :
  forall (NP : Numpy) (turbidity_history temperature_history : list Q),
    (5 <= List.length turbidity_history)%nat ->
    let r := ContaminationDetector.detect_pattern turbidity_history
               temperature_history in
    exists spike trend : bool,
      get "spike_detected" r = VBool spike /\
      get "increasing_trend" r = VBool trend /\
      get "current_turbidity" r = VNum (last turbidity_history 0) /\
      get "baseline_turbidity" r = VNum (np_mean (but_last turbidity_history)) /\
      get "confidence" r = VNum (if spike then 0.7 else 0.5) /\
      lookup "message" r = None /\
      (spike = true -> get "contamination_detected" r = VBool true) /\
      ((List.length turbidity_history < 10)%nat ->
         trend = false /\ get "contamination_detected" r = VBool spike) /\
      (get "contamination_detected" r = VBool true -> spike = false ->
         (10 <= List.length turbidity_history)%nat /\ trend = true /\
         5 < last turbidity_history 0).
Proof.
  intros NP turbidity_history temperature_history Hlen r. subst r.
  unfold ContaminationDetector.detect_pattern.
  assert (E : (List.length turbidity_history <? 5)%nat = false)
    by (apply Nat.ltb_ge; exact Hlen).
  rewrite E. cbv zeta.
  set (spike := num_gtb _ _).
  unfold ContaminationDetector.turbidity_safe.
  destruct (10 <=? List.length turbidity_history)%nat eqn:E10.
  - apply Nat.leb_le in E10.
    set (trend := num_gtb _ _).
    exists spike, trend.
    cbn [get get_default lookup String.eqb Ascii.eqb Bool.eqb].
    repeat split; try reflexivity.
    + intros Hs. rewrite Hs. reflexivity.
    + lia.
    + exfalso. lia.
    + exact E10.
    + destruct spike; [discriminate|]. cbn [orb] in H.
      injection H as H. apply andb_true_iff in H. apply H.
    + destruct spike; [discriminate|]. cbn [orb] in H.
      injection H as H. apply andb_true_iff in H. destruct H as [_ H].
      reflect_cmp. lra.
  - apply Nat.leb_gt in E10.
    exists spike, false.
    cbn [get get_default lookup String.eqb Ascii.eqb Bool.eqb andb].
    rewrite orb_false_r.
    repeat split; try reflexivity.
    + intros Hs. rewrite Hs. reflexivity.
    + exfalso. injection H as H. congruence.
    + exfalso. injection H as H. congruence.
    + exfalso. injection H as H. congruence.
Qed.

Lemma detect_pattern_verdict_spike :
  exists spike trend : bool,
    get "spike_detected"
      (ContaminationDetector.detect_pattern (NP := Standin.numpy)
         [1; 1.2; 0.9; 1.1; 1; 9] [20; 20; 20; 20; 20; 20]) = VBool spike /\
    get "increasing_trend"
      (ContaminationDetector.detect_pattern (NP := Standin.numpy)
         [1; 1.2; 0.9; 1.1; 1; 9] [20; 20; 20; 20; 20; 20]) = VBool trend.
Proof.
  destruct (detect_pattern_verdict Standin.numpy [1; 1.2; 0.9; 1.1; 1; 9]
              [20; 20; 20; 20; 20; 20]) as (spike & trend & H1 & H2 & _).
  - cbn. lia.
  - exists spike, trend. split; [exact H1 | exact H2].
Defined.

(* ===================================================================== *)
(** * Maintenance Estimator: urgency, result shape, features              *)
(* ===================================================================== *)

(** Every result [predict] returns on a history of 30 records or more. *)
Lemma predict_result {NP : Numpy} {SK : Sklearn}
    (self_model : RandomForestRegressor) (device_id : option string)
    (historical_data : list MaintenancePredictor.reading) (d : dict) :
  (30 <= List.length historical_data)%nat ->
  MaintenancePredictor.predict self_model device_id historical_data = Ok d ->
  exists prediction : num,
    let urgency :=
      if num_ltb prediction 1 then "critical"
      else if num_ltb prediction 3 then "high"
      else if num_ltb prediction 7 then "medium" else "low" in
    d = [("maintenance_needed", VBool (num_ltb prediction 7));
         ("days_until_maintenance", VNum prediction);
         ("urgency", VStr urgency);
         ("confidence",
          VNum (py_min (inject_Z (Z.of_nat (List.length historical_data)) / 100) 1.0));
         ("recommended_actions",
          VList (map VStr
                   (MaintenancePredictor._get_recommended_actions urgency
                      (MaintenancePredictor._extract_features historical_data))))].
Proof.
  intros Hlen Hrun. unfold MaintenancePredictor.predict in Hrun.
  apply Nat.ltb_ge in Hlen. rewrite Hlen in Hrun.
  destruct (regressor_predict self_model
              [MaintenancePredictor._extract_features historical_data])
    as [[|prediction others]|e]; cbn [rbind index0] in Hrun; try discriminate Hrun.
  injection Hrun as Hrun. exists prediction. cbv zeta. symmetry. exact Hrun.
Qed.

Lemma num_ltb_finite_trans (x : num) (a b : Q) :
  a <= b -> num_ltb x a = true -> num_ltb x b = true.
Proof.
  intros Hab H. destruct x as [q|]; [|discriminate H].
  cbn [num_ltb] in *. reflect_cmp. apply Qltb_lt. lra.
Qed.

(** X20: on 30 records or more, a result of [predict] is coherent:
    maintenance_needed is true exactly when the urgency is not "low", the
    urgency is the band of the predicted days (critical below 1, high below
    3, medium below 7, else low; a NaN prediction gives low and no
    maintenance), and the list of recommended actions is never empty. *)
Theorem maintenance_urgency_coherent :
  forall (NP : Numpy) (SK : Sklearn) (self_model : RandomForestRegressor)
         (device_id : option string)
         (historical_data : list MaintenancePredictor.reading) (d : dict),
    (30 <= List.length historical_data)%nat ->
    MaintenancePredictor.predict self_model device_id historical_data = Ok d ->
    exists (prediction : num) (urgency : string) (actions : list value),
      get "days_until_maintenance" d = VNum prediction /\
      get "urgency" d = VStr urgency /\
      get "maintenance_needed" d = VBool (num_ltb prediction 7) /\
      (num_ltb prediction 7 = true <-> urgency <> "low") /\
      (urgency = "critical" <-> num_ltb prediction 1 = true) /\
      (prediction = NaN -> urgency = "low") /\
      get "recommended_actions" d = VList actions /\ actions <> [] /\
      lookup "message" d = None.
Proof.
  intros NP SK self_model device_id historical_data d Hlen Hrun.
  destruct (predict_result self_model device_id historical_data d Hlen Hrun)
    as (prediction & Hd).
  cbv zeta in Hd. subst d.
  exists prediction. eexists. eexists.
  cbn [get get_default lookup String.eqb Ascii.eqb Bool.eqb].
  refine (conj eq_refl (conj eq_refl (conj eq_refl
            (conj _ (conj _ (conj _ (conj eq_refl (conj _ eq_refl)))))))).
  - destruct (num_ltb prediction 1) eqn:E1;
      [pose proof (num_ltb_finite_trans prediction 1 7 ltac:(lra) E1) as E7
      |destruct (num_ltb prediction 3) eqn:E3;
       [pose proof (num_ltb_finite_trans prediction 3 7 ltac:(lra) E3) as E7
       |destruct (num_ltb prediction 7) eqn:E7]];
      try rewrite E7;
      (split; [intros H0; try discriminate H0; intros H'; discriminate H'
              | intros H; try reflexivity; exfalso; apply H; reflexivity]).
  - destruct (num_ltb prediction 1) eqn:E1;
      [|destruct (num_ltb prediction 3); [|destruct (num_ltb prediction 7)]];
      (split; intros H; try reflexivity; discriminate H).
  - intros H. subst prediction. reflexivity.
  - destruct (num_ltb prediction 1);
      [|destruct (num_ltb prediction 3); [|destruct (num_ltb prediction 7)]];
      cbn; discriminate.
Qed.

Lemma maintenance_urgency_coherent_40_records :
  exists (prediction : num) (urgency : string),
    get "days_until_maintenance"
      [("maintenance_needed", VBool true); ("days_until_maintenance", VNum 2.5);
       ("urgency", VStr "high"); ("confidence", VNum (40 / 100));
       ("recommended_actions",
        VList [VStr "Schedule maintenance within 3 days";
               VStr "Monitor pump performance closely";
               VStr "Check for unusual vibrations or sounds";
               VStr "Review recent sensor readings"])] = VNum prediction /\
    get "urgency"
      [("maintenance_needed", VBool true); ("days_until_maintenance", VNum 2.5);
       ("urgency", VStr "high"); ("confidence", VNum (40 / 100));
       ("recommended_actions",
        VList [VStr "Schedule maintenance within 3 days";
               VStr "Monitor pump performance closely";
               VStr "Check for unusual vibrations or sounds";
               VStr "Review recent sensor readings"])] = VStr urgency.
Proof.
  edestruct (maintenance_urgency_coherent Standin.numpy (Standin.sklearn false)
               (Scenario.six_features 2.5) None (repeat Standin.steady 40))
    as (prediction & urgency & actions & H1 & H2 & _).
  - cbn. lia.
  - vm_compute. reflexivity.
  - exists prediction, urgency. split; [exact H1 | exact H2].
Defined.

Lemma pump_sum_bounds (l : list MaintenancePredictor.reading) :
  (0 <= MaintenancePredictor.np_sum (map MaintenancePredictor.pump_on l)
   <= Z.of_nat (List.length l))%Z.
Proof.
  induction l as [|d l IH]; cbn [map MaintenancePredictor.np_sum fold_right List.length].
  - lia.
  - fold (MaintenancePredictor.np_sum (map MaintenancePredictor.pump_on l)).
    assert (Hd : (0 <= MaintenancePredictor.pump_on d <= 1)%Z).
    { unfold MaintenancePredictor.pump_on.
      destruct (MaintenancePredictor.pump_status d) as [st|]; [|lia].
      destruct (String.eqb st "on"); lia. }
    lia.
Qed.

(** X21: the feature vector always has six entries, in the order mean
    flow, flow deviation, mean pressure, pressure deviation, mean turbidity,
    pump ratio.  It does not depend on the temperatures nor on the
    timestamps of the records: two histories that agree on flow, pressure,
    turbidity and pump status give the same features.  On a non-empty
    history the pump ratio lies in [0, 1]. *)
Theorem extract_features_shape :
  forall (NP : Numpy) (historical_data : list MaintenancePredictor.reading),
    let used (d : MaintenancePredictor.reading) :=
      (MaintenancePredictor.flow_rate d, MaintenancePredictor.pressure d,
       MaintenancePredictor.turbidity d, MaintenancePredictor.pump_status d) in
    List.length (MaintenancePredictor._extract_features historical_data) = 6%nat /\
    (forall other : list MaintenancePredictor.reading,
       map used other = map used historical_data ->
       MaintenancePredictor._extract_features other
       = MaintenancePredictor._extract_features historical_data) /\
    (historical_data <> [] ->
     exists ratio : Q,
       nth_error (MaintenancePredictor._extract_features historical_data) 5
         = Some (Fin ratio) /\
       0 <= ratio /\ ratio <= 1).
Proof.
  intros NP historical_data used. split; [reflexivity|]. split.
  - intros other Hsame.
    assert (Hf : forall (f : option Q * option Q * option Q * option string -> Q)
                        (g : MaintenancePredictor.reading -> Q),
               (forall d, g d = f (used d)) ->
               map g other = map g historical_data).
    { intros f g Hg.
      rewrite (map_ext g (fun d => f (used d)) Hg other).
      rewrite (map_ext g (fun d => f (used d)) Hg historical_data).
      rewrite <- !(map_map used f). rewrite Hsame. reflexivity. }
    assert (Hp : map MaintenancePredictor.pump_on other
                 = map MaintenancePredictor.pump_on historical_data).
    { rewrite (map_ext MaintenancePredictor.pump_on
                 (fun d => match snd (used d) with
                           | Some st => if String.eqb st "on" then 1%Z else 0%Z
                           | None => 0%Z
                           end) (fun d => eq_refl) other).
      rewrite (map_ext MaintenancePredictor.pump_on
                 (fun d => match snd (used d) with
                           | Some st => if String.eqb st "on" then 1%Z else 0%Z
                           | None => 0%Z
                           end) (fun d => eq_refl) historical_data).
      rewrite <- !(map_map used (fun u => match snd u with
                                          | Some st => if String.eqb st "on" then 1%Z else 0%Z
                                          | None => 0%Z
                                          end)).
      rewrite Hsame. reflexivity. }
    unfold MaintenancePredictor._extract_features. cbv zeta.
    rewrite (Hf (fun u => MaintenancePredictor.get0 (fst (fst (fst u))))
               (fun d => MaintenancePredictor.get0 (MaintenancePredictor.flow_rate d))
               (fun d => eq_refl)).
    rewrite (Hf (fun u => MaintenancePredictor.get0 (snd (fst (fst u))))
               (fun d => MaintenancePredictor.get0 (MaintenancePredictor.pressure d))
               (fun d => eq_refl)).
    rewrite (Hf (fun u => MaintenancePredictor.get0 (snd (fst u)))
               (fun d => MaintenancePredictor.get0 (MaintenancePredictor.turbidity d))
               (fun d => eq_refl)).
    rewrite Hp. reflexivity.
  - intros Hne. eexists. split; [reflexivity|].
    pose proof (pump_sum_bounds historical_data) as [Hlo Hhi].
    rewrite length_map.
    assert (Hn : (0 < Z.of_nat (List.length historical_data))%Z).
    { destruct historical_data; [contradiction | cbn [List.length]; lia]. }
    set (sm := MaintenancePredictor.np_sum _) in *.
    set (n := Z.of_nat _) in *.
    assert (Hq : 0 < inject_Z n) by (change 0 with (inject_Z 0); rewrite <- Zlt_Qlt; exact Hn).
    split.
    + apply Qle_shift_div_l; [exact Hq|].
      rewrite Qmult_0_l. change 0 with (inject_Z 0). rewrite <- Zle_Qle. exact Hlo.
    + apply Qle_shift_div_r; [exact Hq|].
      rewrite Qmult_1_l. rewrite <- Zle_Qle. exact Hhi.
Qed.

(* ===================================================================== *)
(** * The two history routes                                              *)
(* ===================================================================== *)

Lemma leak_history_outcome {NP : Numpy} (device_id : option string)
    (pressure_data flow_data : list Q) :
  let r := LeakDetector.detect_with_history device_id pressure_data flow_data in
  ((List.length pressure_data < 10 \/ List.length flow_data < 10)%nat ->
     exists d, r = Ok d /\ lookup "message" d <> None) /\
  ((10 <= List.length pressure_data)%nat /\
   List.length flow_data = List.length pressure_data ->
     exists d, r = Ok d /\ lookup "message" d = None) /\
  ((10 <= List.length pressure_data)%nat /\ (10 <= List.length flow_data)%nat /\
   List.length flow_data <> List.length pressure_data ->
     exists e, r = Raise e).
Proof.
  intros r. subst r. unfold LeakDetector.detect_with_history.
  destruct ((List.length pressure_data <? 10)%nat
            || (List.length flow_data <? 10)%nat) eqn:E.
  - apply orb_true_iff in E.
    assert (Hs : (List.length pressure_data < 10 \/ List.length flow_data < 10)%nat)
      by (destruct E as [E|E]; apply Nat.ltb_lt in E; auto).
    split; [|split].
    + intros _. eexists. split; [reflexivity | discriminate].
    + intros [H1 H2]. exfalso. lia.
    + intros (H1 & H2 & _). exfalso. lia.
  - apply orb_false_iff in E. destruct E as [E1 E2].
    apply Nat.ltb_ge in E1. apply Nat.ltb_ge in E2.
    unfold np_corrcoef.
    destruct (Nat.eqb (List.length pressure_data) (List.length flow_data)) eqn:Eq.
    + apply Nat.eqb_eq in Eq. cbn [rbind]. cbv zeta.
      split; [|split].
      * intros H. exfalso. lia.
      * intros _. repeat split_if; eexists; split; reflexivity.
      * intros (_ & _ & H). exfalso. apply H. symmetry. exact Eq.
    + apply Nat.eqb_neq in Eq. cbn [rbind].
      split; [|split].
      * intros H. exfalso. lia.
      * intros [_ H]. exfalso. apply Eq. symmetry. exact H.
      * intros _. eexists. reflexivity.
Qed.

(** X22: the /detect-leak route answers 500 exactly when both series have
    at least 10 points and their lengths differ; in every other case it
    answers 200.  In particular a request without the two arrays (both
    read as empty lists) is answered 200 with the insufficient-data
    result, and an error answer has the single field "error". *)
Theorem detect_leak_status :
  forall (NP : Numpy) (device_id : option string) (pressure_data flow_data : list Q),
    let answer := App.detect_leak device_id pressure_data flow_data in
    (snd answer = 500%Z <->
       (10 <= List.length pressure_data)%nat /\ (10 <= List.length flow_data)%nat /\
       List.length flow_data <> List.length pressure_data) /\
    (snd answer = 200%Z \/ snd answer = 500%Z) /\
    (snd answer = 500%Z ->
       exists e, fst answer = [("error", VStr e)]) /\
    (snd answer = 200%Z ->
       LeakDetector.detect_with_history device_id pressure_data flow_data
       = Ok (fst answer)) /\
    App.detect_leak device_id [] [] =
      ([("leak_detected", VBool false); ("confidence", VNum 0);
        ("message", VStr "Insufficient data for leak detection")], 200%Z).
Proof.
  intros NP device_id pressure_data flow_data answer. subst answer.
  pose proof (leak_history_outcome device_id pressure_data flow_data)
    as (Hshort & Heq & Hneq).
  cbv zeta in Hshort, Heq, Hneq.
  unfold App.detect_leak.
  destruct (LeakDetector.detect_with_history device_id pressure_data flow_data)
    as [d|e] eqn:Er; cbn [rbind App.jsonify existsb fst snd].
  - split; [|split; [|split; [|split]]].
    + split; [intros H; discriminate H|].
      intros H. destruct (Hneq H) as (e & He). discriminate He.
    + left. reflexivity.
    + intros H. discriminate H.
    + intros _. reflexivity.
    + reflexivity.
  - split; [|split; [|split; [|split]]].
    + split; [|reflexivity].
      intros _.
      destruct (Nat.lt_ge_cases (List.length pressure_data) 10) as [H1|H1];
        [destruct Hshort as (d & Hd & _); [left; exact H1 | discriminate Hd]|].
      destruct (Nat.lt_ge_cases (List.length flow_data) 10) as [H2|H2];
        [destruct Hshort as (d & Hd & _); [right; exact H2 | discriminate Hd]|].
      split; [exact H1|]. split; [exact H2|].
      intros H. destruct Heq as (d & Hd & _); [auto | discriminate Hd].
    + right. reflexivity.
    + intros _. exists e. reflexivity.
    + intros H. discriminate H.
    + reflexivity.
Qed.

(** X23: the /predict-maintenance route answers 200 exactly on the
    histories of fewer than 30 records, with maintenance_needed false, no
    days and no urgency.  On 30 records or more it always answers 500 with
    the single field "error": the message of the regression model when it
    raises, and otherwise that of the failed indexing or of the
    serialisation, which meets the numpy boolean of maintenance_needed.
    No history gets a prediction back. *)
Theorem predict_maintenance_status :
  forall (NP : Numpy) (SK : Sklearn) (self_model : RandomForestRegressor)
         (device_id : option string)
         (historical_data : list MaintenancePredictor.reading),
    let answer := App.predict_maintenance self_model device_id historical_data in
    let call :=
      regressor_predict self_model
        [MaintenancePredictor._extract_features historical_data] in
    ((List.length historical_data < 30)%nat ->
       snd answer = 200%Z /\
       get "maintenance_needed" (fst answer) = VBool false /\
       get "days_until_maintenance" (fst answer) = VNone /\
       lookup "urgency" (fst answer) = None /\
       lookup "recommended_actions" (fst answer) = None) /\
    ((30 <= List.length historical_data)%nat ->
       snd answer = 500%Z /\
       (exists e, fst answer = [("error", VStr e)]) /\
       (forall e, call = Raise e -> fst answer = [("error", VStr e)])) /\
    (snd answer = 200%Z <-> (List.length historical_data < 30)%nat) /\
    (snd answer = 200%Z \/ snd answer = 500%Z).
Proof.
  intros NP SK self_model device_id historical_data answer call.
  subst answer call.
  unfold App.predict_maintenance, MaintenancePredictor.predict,
    MaintenancePredictor.numpy_bools.
  destruct (List.length historical_data <? 30)%nat eqn:E.
  - apply Nat.ltb_lt in E.
    cbn [rbind App.jsonify existsb fst snd].
    split; [|split; [|split]].
    + intros _. repeat split.
    + intros H. exfalso. lia.
    + split; [intros _; exact E | reflexivity].
    + left. reflexivity.
  - apply Nat.ltb_ge in E.
    destruct (regressor_predict self_model
                [MaintenancePredictor._extract_features historical_data])
      as [[|p others]|e];
      cbn [rbind index0 App.jsonify existsb lookup String.eqb Ascii.eqb Bool.eqb
           orb fst snd].
    all: split; [intros H; exfalso; lia|].
    all: split; [intros _; split; [reflexivity|];
                 split; [eexists; reflexivity|];
                 intros e' He'; try discriminate He';
                 try (injection He' as He'; subst e'); reflexivity|].
    all: split; [split; [intros H; discriminate H | intros H; exfalso; lia]|].
    all: right; reflexivity.
Qed.

(* ===================================================================== *)
(** * Saving the estimators                                               *)
(* ===================================================================== *)

(** X24: [_save_model] only writes files: whether it returns or raises,
    the scaler and the model in memory are the ones it started with.  It
    dumps the model before the scaler and stops at the first failure, so
    when creating the directory or dumping the model raises, the scaler is
    never dumped. *)
Theorem save_model_only_writes_files :
  forall (SK : Sklearn) (s : AnomalyDetector.store),
    let after := fst (AnomalyDetector._save_model s) in
    let outcome := snd (AnomalyDetector._save_model s) in
    AnomalyDetector.model after = AnomalyDetector.model s /\
    AnomalyDetector.scaler after = AnomalyDetector.scaler s /\
    (forall fs e,
       os_makedirs (AnomalyDetector.files s) = (fs, Raise e) ->
       AnomalyDetector.files after = fs /\ outcome = Raise e) /\
    (forall fs fs' e,
       os_makedirs (AnomalyDetector.files s) = (fs, Ok tt) ->
       joblib_dump_model (AnomalyDetector.model s) fs = (fs', Raise e) ->
       AnomalyDetector.files after = fs' /\ outcome = Raise e) /\
    (forall fs fs',
       os_makedirs (AnomalyDetector.files s) = (fs, Ok tt) ->
       joblib_dump_model (AnomalyDetector.model s) fs = (fs', Ok tt) ->
       (AnomalyDetector.files after, outcome)
       = joblib_dump_scaler (AnomalyDetector.scaler s) fs').
Proof.
  intros SK s after outcome. subst after outcome.
  pose proof (save_model_keeps_estimators s) as [Hm Hs].
  split; [exact Hm|]. split; [exact Hs|].
  unfold AnomalyDetector._save_model. unfold_method.
  split; [|split].
  - intros fs e H. rewrite H. cbn. split; reflexivity.
  - intros fs fs' e H1 H2. rewrite H1. cbn. rewrite H2. cbn. split; reflexivity.
  - intros fs fs' H1 H2. rewrite H1. cbn. rewrite H2. cbn.
    destruct (joblib_dump_scaler (AnomalyDetector.scaler s) fs') as [fs3 r3].
    cbn. reflexivity.
Qed.

(* ===================================================================== *)
(** * Leak history: what a fused result holds                             *)
(* ===================================================================== *)

(** X25: on two series of the same length with at least 10 points, the
    result of the historical leak detector is coherent: nothing detected
    means confidence 0 and no location estimate; a detection has a
    confidence of at least 0.3 and at most 1 and a location estimate, whose
    index is the position of the steepest pressure drop and whose
    pressure_drop repeats the top-level one. *)
Theorem leak_history_result_coherent :
  forall (NP : Numpy) (device_id : option string) (pressure_data flow_data : list Q)
         (d : dict),
    (10 <= List.length pressure_data)%nat ->
    List.length flow_data = List.length pressure_data ->
    LeakDetector.detect_with_history device_id pressure_data flow_data = Ok d ->
    exists (detected : bool) (q : Q),
      get "leak_detected" d = VBool detected /\
      get "confidence" d = VNum q /\
      get "pressure_drop" d = VNum (np_min (np_gradient pressure_data)) /\
      lookup "message" d = None /\
      (detected = false ->
         q == 0 /\ get "leak_location_estimate" d = VNone) /\
      (detected = true ->
         0.3 <= q /\ q <= 1 /\
         get "leak_location_estimate" d =
           VDict [("index", VNum (inject_Z (np_argmin (np_gradient pressure_data))));
                  ("pressure_drop", VNum (np_min (np_gradient pressure_data)));
                  ("method", VStr "pressure_gradient_analysis")]).
Proof.
  intros NP device_id pressure_data flow_data d H1 H2 Hrun.
  unfold LeakDetector.detect_with_history in Hrun.
  assert (E : (List.length pressure_data <? 10)%nat
              || (List.length flow_data <? 10)%nat = false).
  { apply orb_false_iff. split; apply Nat.ltb_ge; lia. }
  rewrite E in Hrun. unfold np_corrcoef in Hrun.
  rewrite H2, Nat.eqb_refl in Hrun. cbn [rbind] in Hrun. cbv zeta in Hrun.
  destruct (num_ltb (np_min (np_gradient pressure_data)) (-0.3));
    destruct (num_ltb (pearson pressure_data flow_data) (-0.5));
    destruct (num_ltb (np_mean (last_n 5 pressure_data))
                (num_sub (np_mean pressure_data) (num_mul 2 (np_std pressure_data))));
    injection Hrun as Hrun; subst d;
    cbn [get get_default lookup String.eqb Ascii.eqb Bool.eqb];
    eexists _, _; (split; [reflexivity|]); (split; [reflexivity|]);
    (split; [reflexivity|]); (split; [reflexivity|]);
    (split; intros H; try discriminate H);
    repeat split; try reflexivity; vm_compute; discriminate.
Qed.

Lemma leak_history_result_coherent_falling_pressure :
  exists (d : dict) (detected : bool) (q : Q),
    LeakDetector.detect_with_history (NP := Standin.numpy) None
      Standin.falling_pressure Standin.constant_flow = Ok d /\
    get "leak_detected" d = VBool detected /\
    get "confidence" d = VNum q.
Proof.
  edestruct (leak_history_result_coherent Standin.numpy None
               Standin.falling_pressure Standin.constant_flow)
    as (detected & q & Hd & Hq & _).
  - vm_compute. lia.
  - reflexivity.
  - vm_compute. reflexivity.
  - eexists _, detected, q. split; [vm_compute; reflexivity|].
    split; [exact Hd | exact Hq].
Defined.
